(** * db-access-utils: the PostgreSQL execution engine and transaction
      coordinator, embedded from the JavaScript sources.

    Source files embedded here:
    - [src/database/DBResult.js], [src/database/DBOperation.js],
      [src/database/PostgresDB.js]
    - [src/configuration/DBConfig.js], [src/configuration/PostgresDBConfig.js]
    - [src/error/*.js]

    The node-postgres pool and its clients are external collaborators.  They
    are modelled by an oracle that answers each call from the history of
    calls made so far; every call the library makes is appended to that
    history, so that the statements issued and the leases taken and given
    back can be counted. *)

From Stdlib Require Import List String ZArith Bool Lia.
Import ListNotations.
Open Scope string_scope.
Open Scope list_scope.
Set Warnings "-register-all".

(** ** JavaScript values *)

(** Plain data.  Numbers are the integral ones (pool sizes, millisecond
    counts, row counts), so there is no NaN. *)
Inductive value : Type :=
| Undefined
| Null
| Bool (b : bool)
| Num (n : Z)
| Str (s : string)
| Arr (items : list value)
| Obj (props : list (string * value)).

(** The error classes of [src/error] and the built-in ones the code can
    raise.  [cause] is [None] when the constructor is called without its
    second argument (the property is then [undefined]). *)
Inductive error : Type :=
| DBConnectionError (message : string) (cause : option error)
| QueryExecutionError (message : string) (cause : option error)
| DBResultMarshallerError (message : string) (cause : option error)
| DBFactoryError (message : string) (cause : option error)
| ReferenceError (message : string)
| TypeError (message : string)
| Failure (message : string).

(** [Failure] stands for whatever the driver or a caller's function throws. *)

Definition cause (e : error) : option error :=
  match e with
  | DBConnectionError _ c | QueryExecutionError _ c
  | DBResultMarshallerError _ c | DBFactoryError _ c => c
  | _ => None
  end.

(** The errors reachable from [e] by following [cause]. *)
Fixpoint cause_chain (e : error) : list error :=
  match e with
  | DBConnectionError _ (Some c) | QueryExecutionError _ (Some c)
  | DBResultMarshallerError _ (Some c) | DBFactoryError _ (Some c) =>
      c :: cause_chain c
  | _ => []
  end.

(** ** DBResult ([src/database/DBResult.js]) *)

Definition isArray (v : value) : bool :=
  match v with Arr _ => true | _ => false end.

Definition isNumber (v : value) : bool :=
  match v with Num _ => true | _ => false end.

Module DBResult.
Record t : Type := mk { rows : value; rowCount : value; fields : value }.

Definition new (rows rowCount fields : value) : t :=
  {| rows := if isArray rows then rows else Null;
     rowCount := if isNumber rowCount then rowCount else Null;
     fields := if isArray fields then fields else Null |}.

Definition setRows (r : t) (rows : value) : t :=
  {| rows := rows; rowCount := rowCount r; fields := fields r |}.
Definition setRowCount (r : t) (rowCount : value) : t :=
  {| rows := rows r; rowCount := rowCount; fields := fields r |}.
Definition setFields (r : t) (fields : value) : t :=
  {| rows := rows r; rowCount := rowCount r; fields := fields |}.
End DBResult.

(** A function value: its declared arity ([f.length]) and what a call on a
    DBResult does, return or throw. *)
Record function : Type :=
  { arity : nat; call : DBResult.t -> error + value }.

(** Anything a caller can pass where the code expects an optional array or
    an optional function. *)
Inductive any : Type :=
| Val (v : value)
| Fn (f : function).

Definition null : any := Val Null.
Definition undefined : any := Val Undefined.

Definition Array_isArray (a : any) : bool :=
  match a with Val (Arr _) => true | _ => false end.

Definition typeof_function (a : any) : bool :=
  match a with Fn _ => true | _ => false end.

Definition is_null (a : any) : bool :=
  match a with Val Null => true | _ => false end.

(** ToBoolean *)
Definition truthy_value (v : value) : bool :=
  match v with
  | Undefined | Null => false
  | Bool b => b
  | Num n => negb (Z.eqb n 0)
  | Str s => negb (String.eqb s "")
  | Arr _ | Obj _ => true
  end.

Definition truthy (a : any) : bool :=
  match a with Val v => truthy_value v | Fn _ => true end.

(** [a || b] *)
Definition or_value (a b : value) : value := if truthy_value a then a else b.
Definition or_any (a b : any) : any := if truthy a then a else b.

Fixpoint lookup (k : string) (props : list (string * value)) : value :=
  match props with
  | [] => Undefined
  | (k', v) :: rest => if String.eqb k k' then v else lookup k rest
  end.

(** [a.length]: a TypeError on undefined and null. *)
Definition get_length (a : any) : error + value :=
  match a with
  | Val Undefined =>
      inl (TypeError "Cannot read properties of undefined (reading 'length')")
  | Val Null =>
      inl (TypeError "Cannot read properties of null (reading 'length')")
  | Val (Arr items) => inr (Num (Z.of_nat (List.length items)))
  | Val (Str s) => inr (Num (Z.of_nat (String.length s)))
  | Val (Obj props) => inr (lookup "length" props)
  | Val _ => inr Undefined
  | Fn f => inr (Num (Z.of_nat (arity f)))
  end.

(** [v === 0] *)
Definition strict_eq_zero (v : value) : bool :=
  match v with Num n => Z.eqb n 0 | _ => false end.

(** [a.length > 0], read only once [Array.isArray(a)] has held. *)
Definition array_nonempty (a : any) : bool :=
  match a with Val (Arr (_ :: _)) => true | _ => false end.

(** ** DBOperation ([src/database/DBOperation.js]) *)

Module Opts.
(** The options object of [DBOperation], [query] and [operation]; a
    property that is not set reads as [undefined]. *)
Record t : Type := mk { parameters : any; marshaller : any }.
Definition empty : t := {| parameters := undefined; marshaller := undefined |}.
(** [opts = {}] in a parameter list: the default applies when the argument
    is omitted. *)
Definition default (opts : option t) : t :=
  match opts with Some o => o | None => empty end.
End Opts.

Module DBOperation.
Record t : Type :=
  mk { statement : string; parameters : any; marshaller : any }.

Definition new (statement : string) (opts : option Opts.t) : t :=
  let opts := Opts.default opts in
  {| statement := statement;
     parameters :=
       if Array_isArray (Opts.parameters opts)
       then Opts.parameters opts else null;
     marshaller :=
       if typeof_function (Opts.marshaller opts)
       then Opts.marshaller opts else null |}.
End DBOperation.

(** ** DBConfig and PostgresDBConfig ([src/configuration]) *)

Module DBConfig.
Record t : Type :=
  mk { vendor : value; hostname : value; port : value;
       database : value; username : value; password : value }.
Definition new (vendor hostname port database username password : value) : t :=
  mk vendor hostname port database username password.
End DBConfig.

Module PostgresDBConfig.
Record opts : Type :=
  mkOpts { opt_maxClients : value;
           opt_idleTimeoutMillis : value;
           opt_connectionTimeoutMillis : value }.

Record t : Type :=
  mk { base : DBConfig.t;
       maxClients : value;
       idleTimeoutMillis : value;
       connectionTimeoutMillis : value }.

(** [opts && opts.p]: [opts] is an object or is omitted ([undefined]). *)
Definition opts_and (o : option opts) (p : opts -> value) : value :=
  match o with
  | None => Undefined
  | Some o => p o
  end.

Definition new (hostname port database username password : value)
           (o : option opts) : t :=
  {| base := DBConfig.new (Str "postgres") hostname port database username password;
     maxClients := or_value (opts_and o opt_maxClients) (Num 10);
     idleTimeoutMillis := or_value (opts_and o opt_idleTimeoutMillis) (Num 10000);
     connectionTimeoutMillis :=
       or_value (opts_and o opt_connectionTimeoutMillis) (Num 0) |}.
End PostgresDBConfig.

(** ** The node-postgres pool and its clients *)

Module Pg.
(** The driver's native result ([https://node-postgres.com/api/result]). *)
Record Result : Type := mkResult { rows : value; rowCount : value; fields : value }.

(** What the library does to the driver, in the order it does it. *)
Inductive event : Type :=
| Connect                                          (* pool.connect() *)
| Query (text : string) (values : option any)      (* client.query(text[, values]) *)
| Release                                          (* client.release() *)
| End.                                             (* pool.end() *)

(** A leased client answers a statement from the calls made so far. *)
Record Client : Type :=
  { query : list event -> string -> option any -> error + Result }.

(** The pool hands out a client or rejects. *)
Record Pool : Type :=
  { connect : list event -> error + Client }.
End Pg.

Definition trace := list Pg.event.

(** ** Sequential effects: the calls made so far, and return or throw *)

Inductive outcome (A : Type) : Type :=
| Returns (a : A)
| Throws (e : error).
Arguments Returns {A} a.
Arguments Throws {A} e.

Definition M (A : Type) : Type := trace -> trace * outcome A.

Definition ret {A} (a : A) : M A := fun t => (t, Returns a).
Definition throw {A} (e : error) : M A := fun t => (t, Throws e).
Definition bind {A B} (m : M A) (k : A -> M B) : M B :=
  fun t =>
    match m t with
    | (t', Returns a) => k a t'
    | (t', Throws e) => (t', Throws e)
    end.

Declare Scope js_scope.
Delimit Scope js_scope with js.
Notation "x <- m ;; k" := (bind m (fun x => k))
  (at level 61, m at next level, right associativity) : js_scope.
Notation "m ;;; k" := (bind m (fun _ => k))
  (at level 61, right associativity) : js_scope.
Open Scope js_scope.

(** [try { body } catch (e) { handler e }] *)
Definition try_catch {A} (body : M A) (handler : error -> M A) : M A :=
  fun t =>
    match body t with
    | (t', Returns a) => (t', Returns a)
    | (t', Throws e) => handler e t'
    end.

(** [try { body } finally { fin }]: [fin] runs on both exits; the outcome of
    [body] stands unless [fin] itself throws. *)
Definition try_finally {A} (body : M A) (fin : M unit) : M A :=
  fun t =>
    match body t with
    | (t', r) =>
        match fin t' with
        | (t'', Returns _) => (t'', r)
        | (t'', Throws e) => (t'', Throws e)
        end
    end.

Definition lift {A} (r : error + A) : M A :=
  match r with
  | inl e => throw e
  | inr a => ret a
  end.

(** [await pool.connect()] *)
Definition pool_connect (pool : Pg.Pool) : M Pg.Client :=
  fun t => (t ++ [Pg.Connect],
            match Pg.connect pool t with
            | inl e => Throws e
            | inr client => Returns client
            end).

(** [await client.query(text)] and [await client.query(text, values)] *)
Definition client_query (client : Pg.Client) (text : string)
           (values : option any) : M Pg.Result :=
  fun t => (t ++ [Pg.Query text values],
            match Pg.query client t text values with
            | inl e => Throws e
            | inr r => Returns r
            end).

(** [client.release()] *)
Definition client_release (client : Pg.Client) : M unit :=
  fun t => (t ++ [Pg.Release], Returns tt).

(** [await pool.end()] *)
Definition pool_end (pool : Pg.Pool) : M unit :=
  fun t => (t ++ [Pg.End], Returns tt).

(** What [operation] and [transaction] hand back for one operation: the
    DBResult, or what the marshaller made of it. *)
Inductive returned : Type :=
| Raw (dbResult : DBResult.t)
| Marshalled (v : value).

(** [f(dbResult)]: calling what is not a function is a TypeError. *)
Definition invoke (f : any) (dbResult : DBResult.t) : error + value :=
  match f with
  | Fn f => call f dbResult
  | Val _ => inl (TypeError "marshaller is not a function")
  end.

(** [if (marshaller) { result = marshaller(result) }], as [operation] and
    [transaction] both have it. *)
Definition marshal (marshaller : any) (dbResult : DBResult.t)
  : error + returned :=
  if truthy marshaller
  then match invoke marshaller dbResult with
       | inl e => inl e
       | inr v => inr (Marshalled v)
       end
  else inr (Raw dbResult).

(** ** PostgresDB ([src/database/PostgresDB.js]) *)

Module Invocation.
(** One entry of the list given to [transaction]:
    [{ operation, parameters }]. *)
Record t : Type := mk { operation : DBOperation.t; parameters : any }.
End Invocation.

Module PostgresDB.
Record t : Type :=
  mk { hostname : value; port : value; database : value;
       username : value; password : value;
       maxClients : value;
       idleTimeoutMillis : value;
       connectionTimeoutMillis : value;
       pool : option Pg.Pool }.

Definition new (cfg : PostgresDBConfig.t) : t :=
  let dbConfig := PostgresDBConfig.base cfg in
  {| hostname := DBConfig.hostname dbConfig;
     port := DBConfig.port dbConfig;
     database := DBConfig.database dbConfig;
     username := DBConfig.username dbConfig;
     password := DBConfig.password dbConfig;
     maxClients := PostgresDBConfig.maxClients cfg;
     idleTimeoutMillis := PostgresDBConfig.idleTimeoutMillis cfg;
     connectionTimeoutMillis := PostgresDBConfig.connectionTimeoutMillis cfg;
     pool := None |}.

Definition set_pool (db : t) (p : Pg.Pool) : t :=
  {| hostname := hostname db; port := port db; database := database db;
     username := username db; password := password db;
     maxClients := maxClients db;
     idleTimeoutMillis := idleTimeoutMillis db;
     connectionTimeoutMillis := connectionTimeoutMillis db;
     pool := Some p |}.

Definition not_connected : string :=
  "Not connected to PostgreSQL database. Please check that that database client pool is connected by calling the connect() method.".

(** [connect]: [created] is the pool that [new Pool({...})] builds; the
    instance keeps it whether or not the first lease succeeds. *)
Definition connect (db : t) (created : Pg.Pool) : t * M unit :=
  (set_pool db created,
   try_catch
     (client <- pool_connect created ;;
      client_release client)
     (fun e => throw (DBConnectionError "Database unavailable" (Some e)))).

Definition disconnect (db : t) : M unit :=
  match pool db with
  | Some p => pool_end p
  | None => throw (TypeError "Cannot read properties of null (reading 'end')")
  end.

Definition unmarshallPgResult (pgResult : Pg.Result) : DBResult.t :=
  let dbResult := DBResult.new Undefined Undefined Undefined in
  let dbResult := DBResult.setRows dbResult (Pg.rows pgResult) in
  let dbResult := DBResult.setRowCount dbResult (Pg.rowCount pgResult) in
  let dbResult := DBResult.setFields dbResult (Pg.fields pgResult) in
  dbResult.

(** The [rollback] closure of [transaction]. *)
Definition rollback (client : Pg.Client) : M unit :=
  try_catch
    (client_query client "ROLLBACK" None ;;; ret tt)
    (fun e =>
       throw (QueryExecutionError
                "Error occurred while rolling back DB transaction" (Some e))).

(** The parameters [transaction] settles on for one entry:
    [operation.parameters || parameters]. *)
Definition transaction_parameters (op : Invocation.t) : any :=
  or_any (DBOperation.parameters (Invocation.operation op))
         (Invocation.parameters op).

(** The [values] argument of the entry's [client.query]:
    [Array.isArray(parameters) && parameters.length > 0]. *)
Definition transaction_values (op : Invocation.t) : option any :=
  let parameters := transaction_parameters op in
  if Array_isArray parameters && array_nonempty parameters
  then Some parameters else None.

(** The body of the [for] loop, for the entry [op]. *)
Definition transaction_step (client : Pg.Client) (op : Invocation.t)
  : M returned :=
  let operation := Invocation.operation op in
  let statement := DBOperation.statement operation in
  let marshaller := DBOperation.marshaller operation in
  pgResult <- client_query client statement (transaction_values op) ;;
  let result := unmarshallPgResult pgResult in
  lift (marshal marshaller result).

(** The [for] loop over the entries still to run; [results] is the array
    filled so far. *)
Fixpoint transaction_loop (client : Pg.Client) (operations : list Invocation.t)
         (results : list returned) : M (list returned) :=
  match operations with
  | [] => ret results
  | op :: rest =>
      result <- transaction_step client op ;;
      transaction_loop client rest (results ++ [result])
  end.

(** The [try] block of [transaction]. *)
Definition transaction_body (client : Pg.Client)
           (operations : list Invocation.t) : M (list returned) :=
  client_query client "BEGIN" None ;;;
  results <- transaction_loop client operations [] ;;
  client_query client "COMMIT" None ;;;
  ret results.

Definition transaction (db : t) (operations : list Invocation.t)
  : M (list returned) :=
  match pool db with
  | None => throw (DBConnectionError not_connected None)
  | Some pool =>
      client <-
        try_catch (pool_connect pool)
          (* [throw new DatabaseConnectionError('Database Unavailable')]:
             the module binds no such name, so evaluating it throws. *)
          (fun e => throw (ReferenceError "DatabaseConnectionError is not defined")) ;;
      try_finally
        (try_catch
           (transaction_body client operations)
           (fun e =>
              rollback client ;;;
              throw (QueryExecutionError
                       "An error occurred executing a database transaction"
                       (Some e))))
        (client_release client)
  end.

(** [parameters === null || parameters.length === 0] *)
Definition null_or_empty (parameters : any) : M bool :=
  if is_null parameters then ret true
  else (len <- lift (get_length parameters) ;; ret (strict_eq_zero len)).

(** The [try] block shared, word for word, by [query] and [operation]. *)
Definition execute (client : Pg.Client) (statement : string)
           (parameters : any) : M DBResult.t :=
  none <- null_or_empty parameters ;;
  if none
  then (pgResult <- client_query client statement None ;;
        ret (unmarshallPgResult pgResult))
  else (pgResult <- client_query client statement (Some parameters) ;;
        ret (unmarshallPgResult pgResult)).

Definition query (db : t) (statement : string) (opts : option Opts.t)
  : M DBResult.t :=
  let opts := Opts.default opts in
  let parameters :=
    if Array_isArray (Opts.parameters opts) then Opts.parameters opts else null in
  match pool db with
  | None => throw (DBConnectionError not_connected None)
  | Some pool =>
      client <-
        try_catch (pool_connect pool)
          (fun e => throw (DBConnectionError "Database unavailable" (Some e))) ;;
      try_finally
        (try_catch
           (execute client statement parameters)
           (fun e =>
              throw (QueryExecutionError "An error occurred executing query"
                                         (Some e))))
        (client_release client)
  end.

Definition operation (db : t) (operation : DBOperation.t)
           (opts : option Opts.t) : M returned :=
  let opts := Opts.default opts in
  let statement := DBOperation.statement operation in
  let parameters :=
    if Array_isArray (Opts.parameters opts)
    then Opts.parameters opts else DBOperation.parameters operation in
  let marshaller := DBOperation.marshaller operation in
  match pool db with
  | None => throw (DBConnectionError not_connected None)
  | Some pool =>
      client <-
        try_catch (pool_connect pool)
          (fun e => throw (DBConnectionError "Database unavailable" (Some e))) ;;
      dbResult <-
        try_finally
          (try_catch
             (execute client statement parameters)
             (fun e =>
                throw (QueryExecutionError "An error occurred executing query"
                                           (Some e))))
          (client_release client) ;;
      lift (marshal marshaller dbResult)
  end.
End PostgresDB.

(** ** DBFactory ([src/database/DBFactory.js]) *)

(** [c.toLowerCase()] on one character.  Strings here are byte strings; only
    the letters A-Z change.  (No character outside ASCII lowercases to a
    letter of the word postgres, so the comparison below decides as the
    JavaScript one does.) *)
Definition lower_char (c : Ascii.ascii) : Ascii.ascii :=
  let n := Ascii.nat_of_ascii c in
  if Nat.leb 65 n && Nat.leb n 90 then Ascii.ascii_of_nat (n + 32) else c.

Fixpoint toLowerCase (s : string) : string :=
  match s with
  | EmptyString => EmptyString
  | String c rest => String (lower_char c) (toLowerCase rest)
  end.

Module DBFactory.
(** The double quote character, for the first message. *)
Definition quote : string := String (Ascii.ascii_of_nat 34) EmptyString.

Definition vendor_missing : string :=
  String.append "The config argument must define a "
    (String.append quote
       (String.append "vendor" (String.append quote " string property"))).

Definition vendor_unsupported : string :=
  "Failed to create DB instance. Unsupported vendor specified in configuration".

(** [config] is a flat object, given by its properties. *)
Definition createPostgresDB (config : list (string * value)) : PostgresDB.t :=
  let postgresDBConfig :=
    PostgresDBConfig.new
      (lookup "hostname" config)
      (lookup "port" config)
      (lookup "database" config)
      (lookup "username" config)
      (lookup "password" config)
      (Some (PostgresDBConfig.mkOpts
               (lookup "maxClients" config)
               (lookup "idleTimeoutMillis" config)
               (lookup "connectionTimeoutMillis" config))) in
  PostgresDB.new postgresDBConfig.

Definition createDB (config : list (string * value)) : error + PostgresDB.t :=
  match lookup "vendor" config with
  | Str vendor =>
      if String.eqb (toLowerCase vendor) "postgres"
      then inr (createPostgresDB config)
      else inl (DBFactoryError vendor_unsupported None)
  | _ => inl (DBFactoryError vendor_missing None)
  end.
End DBFactory.

(** ** Test doubles for the driver *)

Module Double.
Definition no_rows : Pg.Result :=
  Pg.mkResult (Arr []) (Num 0) (Arr []).

Fixpoint failure_of (text : string) (bad : list (string * error))
  : option error :=
  match bad with
  | [] => None
  | (s, e) :: rest => if String.eqb text s then Some e else failure_of text rest
  end.

(** A client that rejects the statements listed in [bad] and answers every
    other one with an empty result. *)
Definition client (bad : list (string * error)) : Pg.Client :=
  {| Pg.query := fun _ text _ =>
       match failure_of text bad with
       | Some e => inl e
       | None => inr no_rows
       end |}.

(** A pool that leases [client bad]. *)
Definition pool (bad : list (string * error)) : Pg.Pool :=
  {| Pg.connect := fun _ => inr (client bad) |}.

(** A pool that cannot lease. *)
Definition exhausted (e : error) : Pg.Pool :=
  {| Pg.connect := fun _ => inl e |}.

Definition config : PostgresDBConfig.t :=
  PostgresDBConfig.new (Str "localhost") (Num 5432) (Str "school")
                       (Str "admin") (Str "secret") None.

(** An instance whose [pool] is [p], as [connect] leaves it. *)
Definition db (p : Pg.Pool) : PostgresDB.t :=
  fst (PostgresDB.connect (PostgresDB.new config) p).

Definition throwing (e : error) : any :=
  Fn {| arity := 1; call := fun _ => inl e |}.

Definition row_count : any :=
  Fn {| arity := 1; call := fun r => inr (DBResult.rowCount r) |}.

(** A transaction entry without parameters of its own: the operation is
    built from [text] and the marshaller [m]; [plain] leaves [opts] out. *)
Definition entry (text : string) (m : any) : Invocation.t :=
  {| Invocation.operation :=
       DBOperation.new text
         (Some {| Opts.parameters := undefined; Opts.marshaller := m |});
     Invocation.parameters := undefined |}.

Definition plain (text : string) : Invocation.t :=
  {| Invocation.operation := DBOperation.new text None;
     Invocation.parameters := undefined |}.

(** An operation built with the parameters [[1]]. *)
Definition update_one : DBOperation.t :=
  DBOperation.new "UPDATE t SET a = $1"
    (Some {| Opts.parameters := Val (Arr [Num 1]);
             Opts.marshaller := undefined |}).

(** [{ parameters: [2] }] *)
Definition override_two : Opts.t :=
  {| Opts.parameters := Val (Arr [Num 2]); Opts.marshaller := undefined |}.

(** An operation whose marshaller throws [e]. *)
Definition select_throwing (e : error) : DBOperation.t :=
  DBOperation.new "SELECT 1"
    (Some {| Opts.parameters := undefined; Opts.marshaller := throwing e |}).

(** The driver rejects INSERT B, and ROLLBACK as well. *)
Definition insert_b_and_rollback_fail : list (string * error) :=
  [("INSERT B", Failure "duplicate key");
   ("ROLLBACK", Failure "connection lost")].

(** The driver rejects INSERT A, and ROLLBACK as well. *)
Definition insert_a_and_rollback_fail : list (string * error) :=
  [("INSERT A", Failure "duplicate key");
   ("ROLLBACK", Failure "connection lost")].

(** The driver rejects BEGIN, and ROLLBACK as well. *)
Definition begin_and_rollback_fail : list (string * error) :=
  [("BEGIN", Failure "read-only");
   ("ROLLBACK", Failure "connection lost")].

(** The driver rejects INSERT B only. *)
Definition insert_b_fails : list (string * error) :=
  [("INSERT B", Failure "duplicate key")].

(** The driver rejects SELECT 1 only. *)
Definition select_fails : list (string * error) :=
  [("SELECT 1", Failure "syntax error")].

(** The driver rejects BEGIN only, and COMMIT only. *)
Definition begin_fails : list (string * error) :=
  [("BEGIN", Failure "read-only")].
Definition commit_fails : list (string * error) :=
  [("COMMIT", Failure "serialization failure")].

(** [{ parameters: ['CS'] }] and [{ parameters: [] }] *)
Definition with_cs : Opts.t :=
  {| Opts.parameters := Val (Arr [Str "CS"]); Opts.marshaller := undefined |}.
Definition with_none : Opts.t :=
  {| Opts.parameters := Val (Arr []); Opts.marshaller := undefined |}.

(** A factory configuration whose [vendor] is [v]. *)
Definition factory_config (v : value) : list (string * value) :=
  [("vendor", v); ("hostname", Str "localhost"); ("port", Num 5432);
   ("database", Str "school"); ("username", Str "admin");
   ("password", Str "secret"); ("maxClients", Num 5)].
End Double.

(** ** Reading the trace *)

(** The call [transaction] makes for one entry. *)
Definition statement_event (op : Invocation.t) : Pg.event :=
  Pg.Query (DBOperation.statement (Invocation.operation op))
           (PostgresDB.transaction_values op).

Definition is_query (ev : Pg.event) : bool :=
  match ev with Pg.Query _ _ => true | _ => false end.

Definition is_release (ev : Pg.event) : bool :=
  match ev with Pg.Release => true | _ => false end.

Definition is_connect (ev : Pg.event) : bool :=
  match ev with Pg.Connect => true | _ => false end.

(** How many times a stretch of the trace takes a lease, and gives one back. *)
Definition leases (evs : trace) : nat := List.length (filter is_connect evs).
Definition releases (evs : trace) : nat := List.length (filter is_release evs).

(** A computation that, from any trace, only appends statements. *)
Definition issues_statements {A} (m : M A) : Prop :=
  forall t, exists qs, fst (m t) = t ++ qs /\ forallb is_query qs = true.

(** The calls appended between [before] and [after] are one lease, then
    statements only, then one release. *)
Definition leased_and_released_once (before after : trace) : Prop :=
  exists qs,
    after = before ++ Pg.Connect :: qs ++ [Pg.Release]
    /\ forallb is_query qs = true
    /\ leases (Pg.Connect :: qs ++ [Pg.Release]) = 1
    /\ releases (Pg.Connect :: qs ++ [Pg.Release]) = 1.

(** The trace of a transaction started at [t] once the statements of its
    first [i] entries have been issued. *)
Definition issued_before (t : trace) (operations : list Invocation.t)
           (i : nat) : trace :=
  t ++ Pg.Connect :: Pg.Query "BEGIN" None
    :: map statement_event (firstn i operations).

(** The [values] argument [query] ends up passing for the options [opts]:
    the array in [opts.parameters] when there is one and it is not empty. *)
Definition query_values (opts : option Opts.t) : option any :=
  let parameters := Opts.parameters (Opts.default opts) in
  if array_nonempty parameters then Some parameters else None.

(** The parameters [operation] settles on:
    [Array.isArray(opts.parameters) ? opts.parameters : operation.parameters]. *)
Definition operation_parameters (op : DBOperation.t) (opts : option Opts.t)
  : any :=
  if Array_isArray (Opts.parameters (Opts.default opts))
  then Opts.parameters (Opts.default opts)
  else DBOperation.parameters op.

(** * Properties of the embedded code *)

(** Traces grow at the end; this puts both sides of an equation between
    traces in right-nested form and compares them. *)
Ltac trace_eq :=
  repeat first [rewrite <- app_assoc | progress cbn [app]]; try reflexivity.

(** Unfolds the effect combinators. *)
Ltac run :=
  unfold bind, try_catch, try_finally, pool_connect, client_query,
    client_release, lift, ret, throw in *.

(** ** Parameter precedence *)

(** X8: in [operation] an array given in [opts.parameters] is the one the
    statement runs with; the operation's own parameters are not read.  An
    empty array given there makes the statement run without values. *)
Lemma operation_uses_override :
  forall db pool client op (override : list value) m t,
    PostgresDB.pool db = Some pool ->
    Pg.connect pool t = inr client ->
    fst (PostgresDB.operation db op
           (Some {| Opts.parameters := Val (Arr override); Opts.marshaller := m |}) t)
    = t ++ [Pg.Connect;
            Pg.Query (DBOperation.statement op)
                     (match override with
                      | [] => None
                      | _ :: _ => Some (Val (Arr override))
                      end);
            Pg.Release].
Proof.
  intros db pool client op override m t Hpool Hconn.
  unfold PostgresDB.operation, PostgresDB.execute, PostgresDB.null_or_empty,
    bind, try_catch, try_finally, pool_connect, client_query, client_release,
    lift, ret, throw.
  rewrite Hpool, Hconn. cbn.
  destruct override as [|v vs]; cbn.
  - destruct (Pg.query client _ _ _); cbn;
      [| destruct (marshal _ _)]; cbn; trace_eq.
  - destruct (Pg.query client _ _ _); cbn;
      [| destruct (marshal _ _)]; cbn; trace_eq.
Qed.

(** X9: without an array in [opts.parameters], [operation] runs the
    statement with the operation's own array, and without values when that
    array is empty. *)
Lemma operation_uses_own_parameters :
  forall db pool client statement (own : list value) m opts t,
    PostgresDB.pool db = Some pool ->
    Pg.connect pool t = inr client ->
    Array_isArray (Opts.parameters (Opts.default opts)) = false ->
    fst (PostgresDB.operation db
           {| DBOperation.statement := statement;
              DBOperation.parameters := Val (Arr own);
              DBOperation.marshaller := m |} opts t)
    = t ++ [Pg.Connect;
            Pg.Query statement
                     (match own with
                      | [] => None
                      | _ :: _ => Some (Val (Arr own))
                      end);
            Pg.Release].
Proof.
  intros db pool client statement own m opts t Hpool Hconn Hnone.
  unfold PostgresDB.operation, PostgresDB.execute, PostgresDB.null_or_empty,
    bind, try_catch, try_finally, pool_connect, client_query, client_release,
    lift, ret, throw.
  rewrite Hpool, Hconn, Hnone. cbn.
  destruct own as [|v vs]; cbn.
  - destruct (Pg.query client _ _ _); cbn;
      [| destruct (marshal _ _)]; cbn; trace_eq.
  - destruct (Pg.query client _ _ _); cbn;
      [| destruct (marshal _ _)]; cbn; trace_eq.
Qed.

(** In [transaction] the operation's own array comes first: whenever the
    operation has one, the entry's [parameters] are not used. *)
Lemma transaction_prefers_own_parameters :
  forall statement (own : list value) m override,
    PostgresDB.transaction_parameters
      {| Invocation.operation :=
           {| DBOperation.statement := statement;
              DBOperation.parameters := Val (Arr own);
              DBOperation.marshaller := m |};
         Invocation.parameters := override |}
    = Val (Arr own).
Proof. reflexivity. Qed.

(** C1 (evaluation at the failing input): a transaction of one entry whose
    operation was built with the parameters [[1]] and whose entry carries
    the override [[2]] runs the statement with [[1]]: the override is
    dropped, where [operation] would have used it. *)
Theorem transaction_drops_override :
  fst (PostgresDB.transaction (Double.db (Double.pool []))
         [ {| Invocation.operation := Double.update_one;
              Invocation.parameters := Val (Arr [Num 2]) |} ] [])
  = [Pg.Connect;
     Pg.Query "BEGIN" None;
     Pg.Query "UPDATE t SET a = $1" (Some (Val (Arr [Num 1])));
     Pg.Query "COMMIT" None;
     Pg.Release]
  /\
  fst (PostgresDB.operation (Double.db (Double.pool []))
         Double.update_one (Some Double.override_two) [])
  = [Pg.Connect;
     Pg.Query "UPDATE t SET a = $1" (Some (Val (Arr [Num 2])));
     Pg.Release].
Proof. split; reflexivity. Qed.

(** ** Not connected *)

(** C8: while [pool] is null, [query], [operation] and [transaction] each
    raise a DBConnectionError carrying the not-connected message; the trace
    is left as it was, so no lease was attempted and no statement issued. *)
Theorem not_connected_raises_before_any_lease :
  forall (db : PostgresDB.t) (t : trace),
    PostgresDB.pool db = None ->
    (forall statement opts,
        PostgresDB.query db statement opts t
        = (t, Throws (DBConnectionError PostgresDB.not_connected None)))
    /\ (forall op opts,
           PostgresDB.operation db op opts t
           = (t, Throws (DBConnectionError PostgresDB.not_connected None)))
    /\ (forall operations,
           PostgresDB.transaction db operations t
           = (t, Throws (DBConnectionError PostgresDB.not_connected None))).
Proof.
  intros db t Hnull. repeat split; intros.
  - unfold PostgresDB.query. rewrite Hnull. reflexivity.
  - unfold PostgresDB.operation. rewrite Hnull. reflexivity.
  - unfold PostgresDB.transaction. rewrite Hnull. reflexivity.
Qed.

Lemma not_connected_raises_before_any_lease_witness :
  PostgresDB.pool (PostgresDB.new Double.config) = None
  /\ PostgresDB.transaction (PostgresDB.new Double.config) [] []
     = ([], Throws (DBConnectionError PostgresDB.not_connected None)).
Proof.
  split.
  - reflexivity.
  - apply (not_connected_raises_before_any_lease
             (PostgresDB.new Double.config) []).
    reflexivity.
Defined.

(** ** A lease that fails *)

(** X3: in [query] a rejected [pool.connect()] is raised as a
    DBConnectionError that wraps the rejection; no statement is issued and
    nothing is released. *)
Lemma query_lease_failure :
  forall db pool e statement opts t,
    PostgresDB.pool db = Some pool ->
    Pg.connect pool t = inl e ->
    PostgresDB.query db statement opts t
    = (t ++ [Pg.Connect],
       Throws (DBConnectionError "Database unavailable" (Some e))).
Proof.
  intros db pool e statement opts t Hpool Hconn.
  unfold PostgresDB.query. run. rewrite Hpool, Hconn. reflexivity.
Qed.

(** X6: in [operation] a rejected [pool.connect()] is raised as a
    DBConnectionError that wraps the rejection; no statement is issued,
    nothing is released and the marshaller is not called. *)
Lemma operation_lease_failure :
  forall db pool e op opts t,
    PostgresDB.pool db = Some pool ->
    Pg.connect pool t = inl e ->
    PostgresDB.operation db op opts t
    = (t ++ [Pg.Connect],
       Throws (DBConnectionError "Database unavailable" (Some e))).
Proof.
  intros db pool e op opts t Hpool Hconn.
  unfold PostgresDB.operation. run. rewrite Hpool, Hconn. reflexivity.
Qed.

(** C3 (evaluation at the failing input): on a connected instance whose pool
    rejects the lease with [e], [transaction] issues no statement, but what
    it raises is the ReferenceError of the unbound name
    [DatabaseConnectionError], which neither is a DBConnectionError nor
    carries [e]. *)
Theorem transaction_lease_failure_raises_reference_error :
  forall (e : error) (operations : list Invocation.t) (t : trace),
    PostgresDB.transaction (Double.db (Double.exhausted e)) operations t
    = (t ++ [Pg.Connect],
       Throws (ReferenceError "DatabaseConnectionError is not defined"))
    /\ cause_chain (ReferenceError "DatabaseConnectionError is not defined") = [].
Proof. intros e operations t. split; reflexivity. Qed.

(** ** Pool tunables *)

(** A tunable that is absent, because [opts] is omitted or because the
    property is not set, takes its default. *)
Lemma pool_tunable_defaults :
  forall hostname port database username password,
    let absent := PostgresDBConfig.mkOpts Undefined Undefined Undefined in
    forall o, o = None \/ o = Some absent ->
    let cfg := PostgresDBConfig.new hostname port database username password o in
    PostgresDBConfig.maxClients cfg = Num 10
    /\ PostgresDBConfig.idleTimeoutMillis cfg = Num 10000
    /\ PostgresDBConfig.connectionTimeoutMillis cfg = Num 0.
Proof.
  intros hostname port database username password absent o [-> | ->];
    repeat split; reflexivity.
Qed.


(** C9 (evaluation at the failing input): with [idleTimeoutMillis: 0] in
    [opts], the stored [idleTimeoutMillis] is 10000, not 0: [0 || 10000]
    gives the default; the absent tunables do take 10, 10000 and 0. *)
Theorem idle_timeout_zero_replaced_by_default :
  forall hostname port database username password maxClients connectionTimeoutMillis,
    PostgresDBConfig.idleTimeoutMillis
      (PostgresDBConfig.new hostname port database username password
         (Some (PostgresDBConfig.mkOpts maxClients (Num 0) connectionTimeoutMillis)))
    = Num 10000
    /\ PostgresDBConfig.maxClients Double.config = Num 10
    /\ PostgresDBConfig.idleTimeoutMillis Double.config = Num 10000
    /\ PostgresDBConfig.connectionTimeoutMillis Double.config = Num 0.
Proof. intros. repeat split; reflexivity. Qed.

(** ** The DBOperation constructor *)

(** C10: the [parameters] of a constructed DBOperation are
    [opts.parameters] when that is an array and null otherwise, its
    [marshaller] is [opts.marshaller] when that is a function and null
    otherwise; so [parameters] is an array or null and [marshaller] is a
    function or null, whatever was passed. *)
Theorem DBOperation_fields_normalized :
  forall (statement : string) (opts : option Opts.t),
    let supplied := Opts.default opts in
    let op := DBOperation.new statement opts in
    DBOperation.statement op = statement
    /\ DBOperation.parameters op
       = (if Array_isArray (Opts.parameters supplied)
          then Opts.parameters supplied else null)
    /\ DBOperation.marshaller op
       = (if typeof_function (Opts.marshaller supplied)
          then Opts.marshaller supplied else null)
    /\ Array_isArray (DBOperation.parameters op)
       = Array_isArray (Opts.parameters supplied)
    /\ typeof_function (DBOperation.marshaller op)
       = typeof_function (Opts.marshaller supplied)
    /\ (Array_isArray (DBOperation.parameters op) = true
        \/ DBOperation.parameters op = null)
    /\ (typeof_function (DBOperation.marshaller op) = true
        \/ DBOperation.marshaller op = null).
Proof.
  intros statement opts supplied op. subst op. unfold DBOperation.new.
  fold supplied. cbn.
  destruct (Array_isArray (Opts.parameters supplied)) eqn:Hp;
    destruct (typeof_function (Opts.marshaller supplied)) eqn:Hm;
    rewrite ?Hp, ?Hm; repeat split; auto.
Qed.

(** ** A marshaller that throws *)

(** C2 (counterexample): the statement succeeds and the marshaller throws
    [Failure "boom"]; [operation] raises that very error, not a
    DBResultMarshallerError around it, and [transaction] rolls back and
    raises a QueryExecutionError around it. *)
Lemma marshaller_failure_is_not_wrapped :
  PostgresDB.operation (Double.db (Double.pool []))
    (Double.select_throwing (Failure "boom")) None []
  = ([Pg.Connect; Pg.Query "SELECT 1" None; Pg.Release],
     Throws (Failure "boom"))
  /\ (forall message,
         snd (PostgresDB.operation (Double.db (Double.pool []))
                (Double.select_throwing (Failure "boom")) None [])
         <> Throws (DBResultMarshallerError message (Some (Failure "boom"))))
  /\ PostgresDB.transaction (Double.db (Double.pool []))
       [ {| Invocation.operation := Double.select_throwing (Failure "boom");
            Invocation.parameters := undefined |} ] []
     = ([Pg.Connect; Pg.Query "BEGIN" None; Pg.Query "SELECT 1" None;
         Pg.Query "ROLLBACK" None; Pg.Release],
        Throws (QueryExecutionError
                  "An error occurred executing a database transaction"
                  (Some (Failure "boom")))).
Proof.
  split; [reflexivity | split; [| reflexivity]].
  intros message. cbn. discriminate.
Qed.

(** C2 (amended): in [operation], when the statement has succeeded and the
    marshaller then throws [e], the call raises [e] itself, unwrapped, the
    lease having been released before the marshaller ran. *)
Theorem operation_raises_what_the_marshaller_throws :
  forall db pool client op opts f dbResult e t t',
    PostgresDB.pool db = Some pool ->
    Pg.connect pool t = inr client ->
    PostgresDB.execute client (DBOperation.statement op)
      (if Array_isArray (Opts.parameters (Opts.default opts))
       then Opts.parameters (Opts.default opts)
       else DBOperation.parameters op)
      (t ++ [Pg.Connect])
    = (t', Returns dbResult) ->
    DBOperation.marshaller op = Fn f ->
    call f dbResult = inl e ->
    PostgresDB.operation db op opts t = (t' ++ [Pg.Release], Throws e).
Proof.
  intros db pool client op opts f dbResult e t t' Hpool Hconn Hexec Hm Hcall.
  unfold PostgresDB.operation. run. rewrite Hpool, Hconn.
  cbv zeta. rewrite Hexec. cbn.
  unfold marshal, invoke. rewrite Hm. cbn. rewrite Hcall. reflexivity.
Qed.

Lemma operation_raises_what_the_marshaller_throws_witness :
  PostgresDB.operation (Double.db (Double.pool []))
    (Double.select_throwing (DBResultMarshallerError "bad row" None)) None []
  = ([Pg.Connect; Pg.Query "SELECT 1" None] ++ [Pg.Release],
     Throws (DBResultMarshallerError "bad row" None)).
Proof.
  apply (operation_raises_what_the_marshaller_throws
           (Double.db (Double.pool [])) (Double.pool []) (Double.client [])
           _ None
           {| arity := 1;
              call := fun _ => inl (DBResultMarshallerError "bad row" None) |}
           (PostgresDB.unmarshallPgResult Double.no_rows));
    reflexivity.
Defined.

(** ** The transaction loop *)

Lemma transaction_step_eq :
  forall client op t,
    PostgresDB.transaction_step client op t
    = (t ++ [statement_event op],
       match Pg.query client t
               (DBOperation.statement (Invocation.operation op))
               (PostgresDB.transaction_values op) with
       | inl e => Throws e
       | inr pgResult =>
           match marshal (DBOperation.marshaller (Invocation.operation op))
                         (PostgresDB.unmarshallPgResult pgResult) with
           | inl e => Throws e
           | inr r => Returns r
           end
       end).
Proof.
  intros client op t. unfold PostgresDB.transaction_step. run.
  destruct (Pg.query client t _ _); [reflexivity |].
  destruct (marshal _ _); reflexivity.
Qed.

Lemma transaction_loop_cons :
  forall client op rest results t,
    PostgresDB.transaction_loop client (op :: rest) results t
    = match PostgresDB.transaction_step client op t with
      | (t', Returns r) =>
          PostgresDB.transaction_loop client rest (results ++ [r]) t'
      | (t', Throws e) => (t', Throws e)
      end.
Proof. reflexivity. Qed.

(** The loop over [before ++ after] is the loop over [before] followed, when
    that returns, by the loop over [after]. *)
Lemma transaction_loop_app :
  forall client before after results t,
    PostgresDB.transaction_loop client (before ++ after) results t
    = match PostgresDB.transaction_loop client before results t with
      | (t', Returns rs) => PostgresDB.transaction_loop client after rs t'
      | (t', Throws e) => (t', Throws e)
      end.
Proof.
  intros client before. induction before as [|op before IH];
    intros after results t.
  - reflexivity.
  - rewrite <- app_comm_cons, !transaction_loop_cons.
    destruct (PostgresDB.transaction_step client op t) as [t' [r|e]];
      [apply IH | reflexivity].
Qed.

(** Whatever the outcome, the loop only appends the statements of a prefix
    of its entries, in their order. *)
Lemma transaction_loop_trace :
  forall client operations results t,
    exists n,
      fst (PostgresDB.transaction_loop client operations results t)
      = t ++ map statement_event (firstn n operations).
Proof.
  intros client operations.
  induction operations as [|op rest IH]; intros results t.
  - exists 0. cbn. now rewrite app_nil_r.
  - rewrite transaction_loop_cons, transaction_step_eq.
    destruct (Pg.query client t _ _) as [e|pgResult].
    + exists 1. cbn. now destruct rest.
    + destruct (marshal _ _) as [e|r].
      * exists 1. cbn. now destruct rest.
      * destruct (IH (results ++ [r]) (t ++ [statement_event op])) as [n Hn].
        exists (S n). rewrite Hn. cbn. trace_eq.
Qed.

(** When the loop returns, every entry's statement was issued, and one
    result was pushed for each. *)
Lemma transaction_loop_returns :
  forall client operations results t t' rs,
    PostgresDB.transaction_loop client operations results t = (t', Returns rs) ->
    t' = t ++ map statement_event operations
    /\ exists pushed, rs = results ++ pushed
                      /\ List.length pushed = List.length operations.
Proof.
  intros client operations.
  induction operations as [|op rest IH]; intros results t t' rs H.
  - cbn in H. inversion H; subst. split; [now rewrite app_nil_r |].
    exists []. now rewrite app_nil_r.
  - rewrite transaction_loop_cons, transaction_step_eq in H.
    destruct (Pg.query client t _ _) as [e|pgResult]; [discriminate |].
    destruct (marshal _ _) as [e|r]; [discriminate |].
    apply IH in H. destruct H as [-> [pushed [-> Hlen]]].
    split; [cbn; trace_eq |].
    exists (r :: pushed). split; [trace_eq | cbn; now rewrite Hlen].
Qed.

(** ** The transaction as a whole *)

(** The [try] block: BEGIN, the loop, COMMIT. *)
Lemma transaction_body_eq :
  forall client operations t,
    PostgresDB.transaction_body client operations t
    = match Pg.query client t "BEGIN" None with
      | inl e => (t ++ [Pg.Query "BEGIN" None], Throws e)
      | inr _ =>
          match PostgresDB.transaction_loop client operations []
                  (t ++ [Pg.Query "BEGIN" None]) with
          | (t', Throws e) => (t', Throws e)
          | (t', Returns results) =>
              (t' ++ [Pg.Query "COMMIT" None],
               match Pg.query client t' "COMMIT" None with
               | inl e => Throws e
               | inr _ => Returns results
               end)
          end
      end.
Proof.
  intros client operations t. unfold PostgresDB.transaction_body. run.
  destruct (Pg.query client t "BEGIN" None); [reflexivity |].
  destruct (PostgresDB.transaction_loop _ _ _ _) as [t' [results|e]];
    [| reflexivity].
  destruct (Pg.query client t' "COMMIT" None); reflexivity.
Qed.

(** Once the lease is taken: the [try] block, then on a throw the ROLLBACK
    and the error built from it, then in both cases the release. *)
Lemma transaction_leased :
  forall db pool client operations t,
    PostgresDB.pool db = Some pool ->
    Pg.connect pool t = inr client ->
    PostgresDB.transaction db operations t
    = match PostgresDB.transaction_body client operations (t ++ [Pg.Connect]) with
      | (t', Returns results) => (t' ++ [Pg.Release], Returns results)
      | (t', Throws e) =>
          (t' ++ [Pg.Query "ROLLBACK" None; Pg.Release],
           Throws
             match Pg.query client t' "ROLLBACK" None with
             | inl r =>
                 QueryExecutionError
                   "Error occurred while rolling back DB transaction" (Some r)
             | inr _ =>
                 QueryExecutionError
                   "An error occurred executing a database transaction" (Some e)
             end)
      end.
Proof.
  intros db pool client operations t Hpool Hconn.
  unfold PostgresDB.transaction, PostgresDB.rollback. run.
  rewrite Hpool, Hconn.
  destruct (PostgresDB.transaction_body _ _ _) as [t' [results|e]];
    [reflexivity |].
  destruct (Pg.query client t' "ROLLBACK" None); cbn; f_equal; trace_eq.
Qed.

(** C4 (counterexample): INSERT B fails, then the ROLLBACK fails.  The error
    raised wraps the rollback's cause only: the cause of the INSERT failure
    is neither the error raised nor anywhere on its chain of causes. *)
Lemma rollback_failure_masks_original_cause :
  snd (PostgresDB.transaction
         (Double.db (Double.pool Double.insert_b_and_rollback_fail))
         [Double.plain "INSERT A"; Double.plain "INSERT B"] [])
  = Throws (QueryExecutionError
              "Error occurred while rolling back DB transaction"
              (Some (Failure "connection lost")))
  /\ ~ In (Failure "duplicate key")
         (QueryExecutionError
            "Error occurred while rolling back DB transaction"
            (Some (Failure "connection lost"))
          :: cause_chain
               (QueryExecutionError
                  "Error occurred while rolling back DB transaction"
                  (Some (Failure "connection lost")))).
Proof.
  split; [reflexivity |].
  cbn. intros [H | [H | []]]; discriminate.
Qed.

(** C4 (amended): when the [try] block of a transaction has thrown and the
    ROLLBACK that follows is rejected with [r], the call raises the
    QueryExecutionError of the rollback, wrapping [r]; the causes it carries
    are [r] and those of [r], and the lease is released after the ROLLBACK. *)
Theorem rollback_failure_is_raised :
  forall db pool client operations t t' e r,
    PostgresDB.pool db = Some pool ->
    Pg.connect pool t = inr client ->
    PostgresDB.transaction_body client operations (t ++ [Pg.Connect])
    = (t', Throws e) ->
    Pg.query client t' "ROLLBACK" None = inl r ->
    let raised :=
      QueryExecutionError
        "Error occurred while rolling back DB transaction" (Some r) in
    PostgresDB.transaction db operations t
    = (t' ++ [Pg.Query "ROLLBACK" None; Pg.Release], Throws raised)
    /\ cause_chain raised = r :: cause_chain r.
Proof.
  intros db pool client operations t t' e r Hpool Hconn Hbody Hrb raised.
  split; [| reflexivity].
  rewrite (transaction_leased db pool client operations t Hpool Hconn).
  rewrite Hbody, Hrb. reflexivity.
Qed.

Lemma rollback_failure_is_raised_witness :
  PostgresDB.transaction
    (Double.db (Double.pool Double.begin_and_rollback_fail)) [] []
  = ([Pg.Connect; Pg.Query "BEGIN" None]
       ++ [Pg.Query "ROLLBACK" None; Pg.Release],
     Throws (QueryExecutionError
               "Error occurred while rolling back DB transaction"
               (Some (Failure "connection lost")))).
Proof.
  apply (rollback_failure_is_raised
           (Double.db (Double.pool Double.begin_and_rollback_fail))
           (Double.pool Double.begin_and_rollback_fail)
           (Double.client Double.begin_and_rollback_fail)
           [] [] _ (Failure "read-only") (Failure "connection lost"));
    reflexivity.
Defined.

(** C5 (counterexample): the only operation fails and the ROLLBACK fails
    too.  One QueryExecutionError is raised, but it does not wrap the cause
    of the operation's failure. *)
Lemma failed_rollback_replaces_original_cause :
  PostgresDB.transaction
    (Double.db (Double.pool Double.insert_a_and_rollback_fail))
    [Double.plain "INSERT A"] []
  = ([Pg.Connect; Pg.Query "BEGIN" None; Pg.Query "INSERT A" None;
      Pg.Query "ROLLBACK" None; Pg.Release],
     Throws (QueryExecutionError
               "Error occurred while rolling back DB transaction"
               (Some (Failure "connection lost"))))
  /\ forall message,
      snd (PostgresDB.transaction
             (Double.db (Double.pool Double.insert_a_and_rollback_fail))
             [Double.plain "INSERT A"] [])
      <> Throws (QueryExecutionError message (Some (Failure "duplicate key"))).
Proof.
  split; [reflexivity |].
  intros message. cbn. discriminate.
Qed.

(** C5 (amended): BEGIN and the first k-1 operations succeed and the
    statement of operation k is rejected with [e].  Then exactly k+1
    statements were issued (BEGIN and the statements of operations 1..k),
    one ROLLBACK follows, then the release; the later operations and COMMIT
    are not issued; no result is returned; and the one error raised is a
    QueryExecutionError, around [e] when the ROLLBACK succeeds and around
    the rollback's own cause when the ROLLBACK is rejected. *)
Theorem transaction_failure_at_operation_k :
  forall db pool client before op after t b t1 results e,
    PostgresDB.pool db = Some pool ->
    Pg.connect pool t = inr client ->
    Pg.query client (t ++ [Pg.Connect]) "BEGIN" None = inr b ->
    PostgresDB.transaction_loop client before []
      (t ++ [Pg.Connect; Pg.Query "BEGIN" None])
    = (t1, Returns results) ->
    Pg.query client t1
      (DBOperation.statement (Invocation.operation op))
      (PostgresDB.transaction_values op)
    = inl e ->
    let k := S (List.length before) in
    let issued :=
      Pg.Query "BEGIN" None :: map statement_event (before ++ [op]) in
    let raised :=
      match Pg.query client (t ++ Pg.Connect :: issued) "ROLLBACK" None with
      | inr _ =>
          QueryExecutionError
            "An error occurred executing a database transaction" (Some e)
      | inl r =>
          QueryExecutionError
            "Error occurred while rolling back DB transaction" (Some r)
      end in
    List.length issued = k + 1
    /\ PostgresDB.transaction db (before ++ op :: after) t
       = (t ++ Pg.Connect :: issued ++ [Pg.Query "ROLLBACK" None; Pg.Release],
          Throws raised).
Proof.
  intros db pool client before op after t b t1 results e
         Hpool Hconn Hbegin Hbefore Hfail k issued raised.
  split.
  - subst issued k. cbn. rewrite length_map, length_app. cbn. lia.
  - rewrite (transaction_leased db pool client _ t Hpool Hconn).
    rewrite transaction_body_eq, Hbegin, transaction_loop_app.
    replace ((t ++ [Pg.Connect]) ++ [Pg.Query "BEGIN" None])
      with (t ++ [Pg.Connect; Pg.Query "BEGIN" None]) by trace_eq.
    rewrite Hbefore, transaction_loop_cons, transaction_step_eq, Hfail.
    apply transaction_loop_returns in Hbefore. destruct Hbefore as [-> _].
    subst raised issued.
    replace (t ++ Pg.Connect
               :: Pg.Query "BEGIN" None :: map statement_event (before ++ [op]))
      with ((t ++ [Pg.Connect; Pg.Query "BEGIN" None]
               ++ map statement_event before) ++ [statement_event op]).
    2:{ rewrite map_app. cbn. trace_eq. }
    f_equal; rewrite ?map_app; cbn [map]; trace_eq.
Qed.

Lemma transaction_failure_at_operation_k_witness :
  PostgresDB.transaction (Double.db (Double.pool Double.insert_b_fails))
    ([Double.plain "INSERT A"]
       ++ Double.plain "INSERT B" :: [Double.plain "INSERT C"]) []
  = ([Pg.Connect; Pg.Query "BEGIN" None;
      Pg.Query "INSERT A" None; Pg.Query "INSERT B" None;
      Pg.Query "ROLLBACK" None; Pg.Release],
     Throws (QueryExecutionError
               "An error occurred executing a database transaction"
               (Some (Failure "duplicate key")))).
Proof.
  pose proof (transaction_failure_at_operation_k
                (Double.db (Double.pool Double.insert_b_fails))
                (Double.pool Double.insert_b_fails)
                (Double.client Double.insert_b_fails)
                [Double.plain "INSERT A"] (Double.plain "INSERT B")
                [Double.plain "INSERT C"] []
                Double.no_rows
                [Pg.Connect; Pg.Query "BEGIN" None; Pg.Query "INSERT A" None]
                [Raw (PostgresDB.unmarshallPgResult Double.no_rows)]
                (Failure "duplicate key")
                eq_refl eq_refl eq_refl eq_refl eq_refl) as H.
  cbv zeta in H. destruct H as [_ H]. exact H.
Defined.

(** ** Lease hygiene *)

Lemma issues_ret : forall A (a : A), issues_statements (ret a).
Proof. intros A a t. exists []. cbn. now rewrite app_nil_r. Qed.

Lemma issues_throw : forall A (e : error), issues_statements (@throw A e).
Proof. intros A e t. exists []. cbn. now rewrite app_nil_r. Qed.

Lemma issues_lift : forall A (r : error + A), issues_statements (lift r).
Proof. intros A [e|a]; [apply issues_throw | apply issues_ret]. Qed.

Lemma issues_client_query :
  forall client text values, issues_statements (client_query client text values).
Proof. intros client text values t. exists [Pg.Query text values]. now cbn. Qed.

Lemma issues_bind :
  forall A B (m : M A) (k : A -> M B),
    issues_statements m -> (forall a, issues_statements (k a)) ->
    issues_statements (bind m k).
Proof.
  intros A B m k Hm Hk t. unfold bind.
  destruct (Hm t) as [qs [Ht Hqs]].
  destruct (m t) as [t' [a|e]]; cbn in Ht; subst t'.
  - destruct (Hk a (t ++ qs)) as [qs' [Ht' Hqs']].
    exists (qs ++ qs'). rewrite Ht', app_assoc, forallb_app, Hqs, Hqs'. now split.
  - exists qs. now split.
Qed.

Lemma issues_try_catch :
  forall A (body : M A) (handler : error -> M A),
    issues_statements body -> (forall e, issues_statements (handler e)) ->
    issues_statements (try_catch body handler).
Proof.
  intros A body handler Hb Hh t. unfold try_catch.
  destruct (Hb t) as [qs [Ht Hqs]].
  destruct (body t) as [t' [a|e]]; cbn in Ht; subst t'.
  - exists qs. now split.
  - destruct (Hh e (t ++ qs)) as [qs' [Ht' Hqs']].
    exists (qs ++ qs'). rewrite Ht', app_assoc, forallb_app, Hqs, Hqs'. now split.
Qed.

Create HintDb statements.
#[local] Hint Resolve issues_ret issues_throw issues_lift issues_client_query
  issues_bind issues_try_catch : statements.

Lemma issues_execute :
  forall client statement parameters,
    issues_statements (PostgresDB.execute client statement parameters).
Proof.
  intros. unfold PostgresDB.execute, PostgresDB.null_or_empty.
  apply issues_bind.
  - destruct (is_null parameters); auto with statements.
  - intros [|]; auto with statements.
Qed.

Lemma issues_transaction_loop :
  forall client operations results,
    issues_statements (PostgresDB.transaction_loop client operations results).
Proof.
  intros client operations.
  induction operations as [|op rest IH]; intros results; cbn.
  - auto with statements.
  - apply issues_bind; [| intros r; apply IH].
    unfold PostgresDB.transaction_step. auto with statements.
Qed.

Lemma issues_transaction_body :
  forall client operations,
    issues_statements (PostgresDB.transaction_body client operations).
Proof.
  intros. unfold PostgresDB.transaction_body.
  auto 6 using issues_transaction_loop with statements.
Qed.

Lemma issues_rollback :
  forall client, issues_statements (PostgresDB.rollback client).
Proof. intros. unfold PostgresDB.rollback. auto with statements. Qed.

#[local] Hint Resolve issues_execute issues_transaction_body issues_rollback
  : statements.

Lemma releases_statements :
  forall qs, forallb is_query qs = true -> releases qs = 0 /\ leases qs = 0.
Proof.
  induction qs as [|ev qs IH]; cbn; [now split |].
  destruct ev; cbn; try discriminate. exact IH.
Qed.

(** One lease, statements, one release: the shape of every leased call. *)
Lemma leased_once :
  forall qs,
    forallb is_query qs = true ->
    leases (Pg.Connect :: qs ++ [Pg.Release]) = 1
    /\ releases (Pg.Connect :: qs ++ [Pg.Release]) = 1.
Proof.
  intros qs Hqs. destruct (releases_statements qs Hqs) as [Hr Hl].
  unfold leases, releases in *. cbn.
  rewrite !filter_app, !length_app, Hr, Hl. now split.
Qed.

(** [try { body } finally { client.release() }] after a lease. *)
Lemma released_after :
  forall A (body : M A) client t,
    issues_statements body ->
    exists qs,
      fst (try_finally body (client_release client) (t ++ [Pg.Connect]))
      = t ++ Pg.Connect :: qs ++ [Pg.Release]
      /\ forallb is_query qs = true.
Proof.
  intros A body client t Hb. unfold try_finally, client_release.
  destruct (Hb (t ++ [Pg.Connect])) as [qs [Ht Hqs]].
  destruct (body (t ++ [Pg.Connect])) as [t' r]; cbn in Ht; subst t'.
  exists qs. split; [cbn; trace_eq | exact Hqs].
Qed.

Lemma lease_granted :
  forall pool client (handler : error -> M Pg.Client) t,
    Pg.connect pool t = inr client ->
    try_catch (pool_connect pool) handler t = (t ++ [Pg.Connect], Returns client).
Proof.
  intros pool client handler t Hconn. unfold try_catch, pool_connect.
  now rewrite Hconn.
Qed.

Lemma leased_shape :
  forall t qs after,
    after = t ++ Pg.Connect :: qs ++ [Pg.Release] ->
    forallb is_query qs = true ->
    leased_and_released_once t after.
Proof.
  intros t qs after -> Hqs. exists qs.
  destruct (leased_once qs Hqs) as [Hl Hr]. auto.
Qed.

(** C6: a [query], [operation] or [transaction] call that has obtained its
    lease appends to the trace that one lease, then statements only, then
    one release, whatever the statements, the ROLLBACK and the marshaller
    do: the lease is given back exactly once on every exit path. *)
Theorem lease_released_exactly_once :
  forall db pool client t,
    PostgresDB.pool db = Some pool ->
    Pg.connect pool t = inr client ->
    (forall statement opts,
        leased_and_released_once t
          (fst (PostgresDB.query db statement opts t)))
    /\ (forall op opts,
           leased_and_released_once t
             (fst (PostgresDB.operation db op opts t)))
    /\ (forall operations,
           leased_and_released_once t
             (fst (PostgresDB.transaction db operations t))).
Proof.
  intros db pool client t Hpool Hconn. repeat split.
  - intros statement opts. unfold PostgresDB.query. rewrite Hpool.
    unfold bind at 1. rewrite (lease_granted pool client _ t Hconn).
    match goal with
    | |- context [try_finally ?body _ _] =>
        destruct (released_after _ body client t) as [qs [Ht Hqs]];
          [auto with statements |]
    end.
    eapply leased_shape; eauto.
  - intros op opts. unfold PostgresDB.operation. rewrite Hpool.
    unfold bind at 1. rewrite (lease_granted pool client _ t Hconn).
    match goal with
    | |- context [try_finally ?body _] =>
        destruct (released_after _ body client t) as [qs [Ht Hqs]];
          [auto with statements |]
    end.
    apply (leased_shape t qs); [| exact Hqs].
    rewrite <- Ht. unfold bind.
    destruct (try_finally _ _ _) as [t' [dbResult|e]]; [| reflexivity].
    destruct (marshal _ _); reflexivity.
  - intros operations. unfold PostgresDB.transaction. rewrite Hpool.
    unfold bind at 1. rewrite (lease_granted pool client _ t Hconn).
    match goal with
    | |- context [try_finally ?body _ _] =>
        destruct (released_after _ body client t) as [qs [Ht Hqs]];
          [auto 6 with statements |]
    end.
    eapply leased_shape; eauto.
Qed.

Lemma lease_released_exactly_once_witness :
  leased_and_released_once []
    (fst (PostgresDB.transaction
            (Double.db (Double.pool Double.insert_b_and_rollback_fail))
            [Double.entry "INSERT A" Double.row_count;
             Double.plain "INSERT B"] []))
  /\ leased_and_released_once []
       (fst (PostgresDB.operation
               (Double.db (Double.pool Double.insert_b_and_rollback_fail))
               (Double.select_throwing (Failure "boom")) None [])).
Proof.
  destruct (lease_released_exactly_once
              (Double.db (Double.pool Double.insert_b_and_rollback_fail))
              (Double.pool Double.insert_b_and_rollback_fail)
              (Double.client Double.insert_b_and_rollback_fail)
              [] eq_refl eq_refl) as [_ [Hop Htx]].
  split; [apply Htx | apply Hop].
Defined.

(** ** Results of a transaction that commits *)

Lemma issued_before_eq :
  forall t operations i,
    issued_before t operations i
    = (t ++ [Pg.Connect; Pg.Query "BEGIN" None])
        ++ map statement_event (firstn i operations).
Proof. intros. unfold issued_before. trace_eq. Qed.

(** What [marshal] returns: the marshaller's output under [Marshalled] when
    the marshaller is a function, the DBResult itself when it is absent. *)
Lemma marshal_returns :
  forall m dbResult r,
    marshal m dbResult = inr r ->
    match m with
    | Fn f => exists v, call f dbResult = inr v /\ r = Marshalled v
    | Val _ => r = Raw dbResult
    end.
Proof.
  intros [v|f] dbResult r; unfold marshal; cbn.
  - destruct (truthy_value v); [discriminate | congruence].
  - destruct (call f dbResult) as [e|v]; [discriminate |].
    intros H. exists v. split; congruence.
Qed.

(** If every entry's statement is answered and every marshaller returns, the
    loop returns, having pushed one result per entry, at the entry's index. *)
Lemma transaction_loop_all_succeed :
  forall client operations results t0,
    (forall i op,
        nth_error operations i = Some op ->
        exists pgResult r,
          Pg.query client (t0 ++ map statement_event (firstn i operations))
            (DBOperation.statement (Invocation.operation op))
            (PostgresDB.transaction_values op)
          = inr pgResult
          /\ marshal (DBOperation.marshaller (Invocation.operation op))
                     (PostgresDB.unmarshallPgResult pgResult)
             = inr r) ->
    exists pushed,
      PostgresDB.transaction_loop client operations results t0
      = (t0 ++ map statement_event operations, Returns (results ++ pushed))
      /\ List.length pushed = List.length operations
      /\ forall i op pgResult,
          nth_error operations i = Some op ->
          Pg.query client (t0 ++ map statement_event (firstn i operations))
            (DBOperation.statement (Invocation.operation op))
            (PostgresDB.transaction_values op)
          = inr pgResult ->
          exists r,
            marshal (DBOperation.marshaller (Invocation.operation op))
                    (PostgresDB.unmarshallPgResult pgResult)
            = inr r
            /\ nth_error pushed i = Some r.
Proof.
  intros client operations.
  induction operations as [|op rest IH]; intros results t0 Hall.
  - exists []. cbn. rewrite !app_nil_r. repeat split.
    intros [|i] op pgResult Hnth; discriminate.
  - destruct (Hall 0 op eq_refl) as [pg0 [r0 [Hq0 Hm0]]].
    cbn in Hq0. rewrite app_nil_r in Hq0.
    destruct (IH (results ++ [r0]) (t0 ++ [statement_event op]))
      as [pushed [Hloop [Hlen Hidx]]].
    { intros i op' Hnth. destruct (Hall (S i) op' Hnth) as [pg [r [Hq Hm]]].
      exists pg, r. split; [| exact Hm].
      rewrite <- app_assoc. exact Hq. }
    exists (r0 :: pushed).
    rewrite transaction_loop_cons, transaction_step_eq, Hq0, Hm0, Hloop.
    split; [f_equal; [cbn; trace_eq | f_equal; trace_eq] |].
    split; [cbn; now rewrite Hlen |].
    intros [|i] op' pgResult Hnth Hq.
    + cbn in Hnth. inversion Hnth; subst op'.
      cbn in Hq. rewrite app_nil_r, Hq0 in Hq. inversion Hq; subst pgResult.
      exists r0. split; [exact Hm0 | reflexivity].
    + cbn in Hnth. apply (Hidx i op' pgResult Hnth).
      rewrite <- app_assoc. exact Hq.
Qed.

(** C7: when BEGIN, every entry's statement and marshaller, and COMMIT all
    succeed, [transaction] returns a list with one element per entry, and
    the element at index i is the result of entry i: what the entry's
    marshaller returns on the DBResult when the operation has a marshaller,
    and the DBResult itself otherwise. *)
Theorem transaction_results_follow_input_order :
  forall db pool client operations t b c,
    PostgresDB.pool db = Some pool ->
    Pg.connect pool t = inr client ->
    Pg.query client (t ++ [Pg.Connect]) "BEGIN" None = inr b ->
    (forall i op,
        nth_error operations i = Some op ->
        exists pgResult r,
          Pg.query client (issued_before t operations i)
            (DBOperation.statement (Invocation.operation op))
            (PostgresDB.transaction_values op)
          = inr pgResult
          /\ marshal (DBOperation.marshaller (Invocation.operation op))
                     (PostgresDB.unmarshallPgResult pgResult)
             = inr r) ->
    Pg.query client (issued_before t operations (List.length operations))
      "COMMIT" None = inr c ->
    exists results,
      PostgresDB.transaction db operations t
      = (issued_before t operations (List.length operations)
           ++ [Pg.Query "COMMIT" None; Pg.Release],
         Returns results)
      /\ List.length results = List.length operations
      /\ forall i op pgResult,
          nth_error operations i = Some op ->
          Pg.query client (issued_before t operations i)
            (DBOperation.statement (Invocation.operation op))
            (PostgresDB.transaction_values op)
          = inr pgResult ->
          let dbResult := PostgresDB.unmarshallPgResult pgResult in
          match DBOperation.marshaller (Invocation.operation op) with
          | Fn f =>
              exists v, call f dbResult = inr v
                        /\ nth_error results i = Some (Marshalled v)
          | Val _ => nth_error results i = Some (Raw dbResult)
          end.
Proof.
  intros db pool client operations t b c Hpool Hconn Hbegin Hall Hcommit.
  destruct (transaction_loop_all_succeed client operations []
              (t ++ [Pg.Connect; Pg.Query "BEGIN" None]))
    as [results [Hloop [Hlen Hidx]]].
  { intros i op Hnth. rewrite <- issued_before_eq. exact (Hall i op Hnth). }
  exists results. cbn [app] in Hloop.
  rewrite issued_before_eq, firstn_all in Hcommit |- *.
  split; [| split; [exact Hlen |]].
  - rewrite (transaction_leased db pool client _ t Hpool Hconn).
    rewrite transaction_body_eq, Hbegin.
    replace ((t ++ [Pg.Connect]) ++ [Pg.Query "BEGIN" None])
      with (t ++ [Pg.Connect; Pg.Query "BEGIN" None]) by trace_eq.
    rewrite Hloop, Hcommit. f_equal. trace_eq.
  - intros i op pgResult Hnth Hq dbResult.
    rewrite issued_before_eq in Hq.
    destruct (Hidx i op pgResult Hnth Hq) as [r [Hm Hr]].
    apply marshal_returns in Hm. fold dbResult in Hm.
    destruct (DBOperation.marshaller (Invocation.operation op)) as [v|f].
    + now subst r.
    + destruct Hm as [v [Hcall ->]]. exists v. now split.
Qed.

Lemma transaction_results_follow_input_order_witness :
  exists results,
    PostgresDB.transaction (Double.db (Double.pool []))
      [Double.entry "SELECT * FROM students" Double.row_count;
       Double.plain "SELECT * FROM departments"] []
    = (issued_before []
         [Double.entry "SELECT * FROM students" Double.row_count;
          Double.plain "SELECT * FROM departments"] 2
         ++ [Pg.Query "COMMIT" None; Pg.Release],
       Returns results)
    /\ List.length results = 2
    /\ nth_error results 0 = Some (Marshalled (Num 0))
    /\ nth_error results 1
       = Some (Raw (PostgresDB.unmarshallPgResult Double.no_rows)).
Proof.
  destruct (transaction_results_follow_input_order
              (Double.db (Double.pool [])) (Double.pool []) (Double.client [])
              [Double.entry "SELECT * FROM students" Double.row_count;
               Double.plain "SELECT * FROM departments"]
              [] Double.no_rows Double.no_rows
              eq_refl eq_refl eq_refl)
    as [results [Hrun [Hlen Hidx]]].
  - intros [|[|i]] op Hnth; cbn in Hnth.
    + inversion Hnth; subst op. eexists. eexists. split; reflexivity.
    + inversion Hnth; subst op. eexists. eexists. split; reflexivity.
    + destruct i; discriminate.
  - reflexivity.
  - exists results. split; [exact Hrun |]. split; [exact Hlen |]. split.
    + destruct (Hidx 0 _ Double.no_rows eq_refl eq_refl) as [v [Hv Hr]].
      cbn in Hv. inversion Hv; subst v. exact Hr.
    + exact (Hidx 1 _ Double.no_rows eq_refl eq_refl).
Defined.

(** * Further properties *)

(** ** [query] and [operation], step by step *)

Lemma array_or_null_cases :
  forall p, Array_isArray p = true \/ p = null ->
            (exists items, p = Val (Arr items)) \/ p = null.
Proof.
  intros p [H | H]; [left | now right].
  destruct p as [[| | | | |items|]|]; try discriminate. now exists items.
Qed.

(** The shared [try] block, for parameters that are an array or null: one
    statement, with the array as values unless it is empty. *)
Lemma execute_eq :
  forall client statement p t,
    Array_isArray p = true \/ p = null ->
    PostgresDB.execute client statement p t
    = (t ++ [Pg.Query statement (if array_nonempty p then Some p else None)],
       match Pg.query client t statement
               (if array_nonempty p then Some p else None) with
       | inl e => Throws e
       | inr pgResult => Returns (PostgresDB.unmarshallPgResult pgResult)
       end).
Proof.
  intros client statement p t Hp.
  destruct (array_or_null_cases p Hp) as [[items ->] | ->].
  - destruct items as [|v items];
      unfold PostgresDB.execute, PostgresDB.null_or_empty; run; cbn;
      destruct (Pg.query client t statement _); reflexivity.
  - unfold PostgresDB.execute, PostgresDB.null_or_empty. run. cbn.
    destruct (Pg.query client t statement None); reflexivity.
Qed.

Lemma query_eq :
  forall db statement opts t,
    PostgresDB.query db statement opts t
    = match PostgresDB.pool db with
      | None => (t, Throws (DBConnectionError PostgresDB.not_connected None))
      | Some pool =>
          match Pg.connect pool t with
          | inl e =>
              (t ++ [Pg.Connect],
               Throws (DBConnectionError "Database unavailable" (Some e)))
          | inr client =>
              (t ++ [Pg.Connect; Pg.Query statement (query_values opts);
                     Pg.Release],
               match Pg.query client (t ++ [Pg.Connect]) statement
                       (query_values opts) with
               | inl e =>
                   Throws (QueryExecutionError
                             "An error occurred executing query" (Some e))
               | inr pgResult =>
                   Returns (PostgresDB.unmarshallPgResult pgResult)
               end)
          end
      end.
Proof.
  intros db statement opts t. unfold PostgresDB.query.
  destruct (PostgresDB.pool db) as [pool|]; [| reflexivity].
  unfold bind at 1, try_catch at 1, pool_connect.
  destruct (Pg.connect pool t) as [e|client]; [reflexivity |].
  unfold try_finally, try_catch, client_release, throw.
  rewrite execute_eq.
  2:{ destruct (Array_isArray (Opts.parameters (Opts.default opts))) eqn:H;
        [left; exact H | now right]. }
  replace (if array_nonempty
                (if Array_isArray (Opts.parameters (Opts.default opts))
                 then Opts.parameters (Opts.default opts) else null)
           then Some (if Array_isArray (Opts.parameters (Opts.default opts))
                      then Opts.parameters (Opts.default opts) else null)
           else None)
    with (query_values opts).
  2:{ unfold query_values.
      destruct (Opts.parameters (Opts.default opts)) as [[| | | | |[|v l]|]|];
        reflexivity. }
  destruct (Pg.query client (t ++ [Pg.Connect]) statement (query_values opts));
    f_equal; trace_eq.
Qed.

Lemma operation_eq :
  forall db op opts t,
    Array_isArray (operation_parameters op opts) = true
    \/ operation_parameters op opts = null ->
    let values :=
      if array_nonempty (operation_parameters op opts)
      then Some (operation_parameters op opts) else None in
    PostgresDB.operation db op opts t
    = match PostgresDB.pool db with
      | None => (t, Throws (DBConnectionError PostgresDB.not_connected None))
      | Some pool =>
          match Pg.connect pool t with
          | inl e =>
              (t ++ [Pg.Connect],
               Throws (DBConnectionError "Database unavailable" (Some e)))
          | inr client =>
              (t ++ [Pg.Connect;
                     Pg.Query (DBOperation.statement op) values; Pg.Release],
               match Pg.query client (t ++ [Pg.Connect])
                       (DBOperation.statement op) values with
               | inl e =>
                   Throws (QueryExecutionError
                             "An error occurred executing query" (Some e))
               | inr pgResult =>
                   match marshal (DBOperation.marshaller op)
                                 (PostgresDB.unmarshallPgResult pgResult) with
                   | inl e => Throws e
                   | inr r => Returns r
                   end
               end)
          end
      end.
Proof.
  intros db op opts t Hp values. unfold PostgresDB.operation.
  destruct (PostgresDB.pool db) as [pool|]; [| reflexivity].
  unfold bind at 1, try_catch at 1, pool_connect.
  destruct (Pg.connect pool t) as [e|client]; [reflexivity |].
  unfold bind, try_finally, try_catch, client_release, throw, lift, ret.
  fold (operation_parameters op opts). rewrite (execute_eq _ _ _ _ Hp).
  fold values.
  destruct (Pg.query client (t ++ [Pg.Connect]) (DBOperation.statement op) values);
    [f_equal; trace_eq |].
  destruct (marshal _ _); f_equal; trace_eq.
Qed.

(** The operation built by the constructor always leaves [operation] with
    an array or null to run with. *)
Lemma constructed_parameters_array_or_null :
  forall statement o opts,
    Array_isArray (operation_parameters (DBOperation.new statement o) opts) = true
    \/ operation_parameters (DBOperation.new statement o) opts = null.
Proof.
  intros statement o opts. unfold operation_parameters.
  destruct (Array_isArray (Opts.parameters (Opts.default opts))) eqn:H;
    [now left |].
  cbn. destruct (Array_isArray (Opts.parameters (Opts.default o))) eqn:H';
    [now left | now right].
Qed.

(** ** [query] *)

(** X1: on a leased connection whose statement succeeds, [query] issues that
    one statement (with the array of [opts.parameters] as values when it is
    a non-empty array, without values otherwise), releases, and returns a
    DBResult holding the driver's rows, rowCount and fields unchanged. *)
Theorem query_returns_driver_result :
  forall db pool client statement opts pgResult t,
    PostgresDB.pool db = Some pool ->
    Pg.connect pool t = inr client ->
    Pg.query client (t ++ [Pg.Connect]) statement (query_values opts)
    = inr pgResult ->
    PostgresDB.query db statement opts t
    = (t ++ [Pg.Connect; Pg.Query statement (query_values opts); Pg.Release],
       Returns {| DBResult.rows := Pg.rows pgResult;
                  DBResult.rowCount := Pg.rowCount pgResult;
                  DBResult.fields := Pg.fields pgResult |}).
Proof.
  intros db pool client statement opts pgResult t Hpool Hconn Hq.
  rewrite query_eq, Hpool, Hconn, Hq. reflexivity.
Qed.

Lemma query_returns_driver_result_witness :
  PostgresDB.query (Double.db (Double.pool []))
    "SELECT * FROM departments WHERE name=$1" (Some Double.with_cs) []
  = ([] ++ [Pg.Connect;
            Pg.Query "SELECT * FROM departments WHERE name=$1"
                     (query_values (Some Double.with_cs));
            Pg.Release],
     Returns {| DBResult.rows := Pg.rows Double.no_rows;
                DBResult.rowCount := Pg.rowCount Double.no_rows;
                DBResult.fields := Pg.fields Double.no_rows |}).
Proof.
  apply (query_returns_driver_result
           (Double.db (Double.pool [])) (Double.pool []) (Double.client []));
    reflexivity.
Defined.

(** X2: when the statement is rejected with [e], [query] raises a
    QueryExecutionError whose cause is [e], after releasing the lease. *)
Theorem query_statement_failure :
  forall db pool client statement opts e t,
    PostgresDB.pool db = Some pool ->
    Pg.connect pool t = inr client ->
    Pg.query client (t ++ [Pg.Connect]) statement (query_values opts) = inl e ->
    PostgresDB.query db statement opts t
    = (t ++ [Pg.Connect; Pg.Query statement (query_values opts); Pg.Release],
       Throws (QueryExecutionError "An error occurred executing query" (Some e))).
Proof.
  intros db pool client statement opts e t Hpool Hconn Hq.
  rewrite query_eq, Hpool, Hconn, Hq. reflexivity.
Qed.

Lemma query_statement_failure_witness :
  PostgresDB.query (Double.db (Double.pool Double.select_fails)) "SELECT 1" None []
  = ([] ++ [Pg.Connect; Pg.Query "SELECT 1" (query_values None); Pg.Release],
     Throws (QueryExecutionError "An error occurred executing query"
                                 (Some (Failure "syntax error")))).
Proof.
  apply (query_statement_failure
           (Double.db (Double.pool Double.select_fails))
           (Double.pool Double.select_fails)
           (Double.client Double.select_fails));
    reflexivity.
Defined.

Lemma query_lease_failure_witness :
  PostgresDB.query (Double.db (Double.exhausted (Failure "timeout")))
    "SELECT 1" None []
  = ([] ++ [Pg.Connect],
     Throws (DBConnectionError "Database unavailable" (Some (Failure "timeout")))).
Proof.
  apply (query_lease_failure
           (Double.db (Double.exhausted (Failure "timeout")))
           (Double.exhausted (Failure "timeout")));
    reflexivity.
Defined.

Lemma operation_lease_failure_witness :
  PostgresDB.operation (Double.db (Double.exhausted (Failure "timeout")))
    Double.update_one None []
  = ([] ++ [Pg.Connect],
     Throws (DBConnectionError "Database unavailable" (Some (Failure "timeout")))).
Proof.
  apply (operation_lease_failure
           (Double.db (Double.exhausted (Failure "timeout")))
           (Double.exhausted (Failure "timeout")));
    reflexivity.
Defined.

(** X4: options whose [parameters] is not a non-empty array (absent, null,
    not an array, or the empty array) make [query] behave exactly as when
    the options are left out: same calls, same outcome. *)
Theorem query_without_values_as_without_options :
  forall db statement opts t,
    array_nonempty (Opts.parameters (Opts.default opts)) = false ->
    PostgresDB.query db statement opts t = PostgresDB.query db statement None t.
Proof.
  intros db statement opts t Hp. rewrite !query_eq.
  replace (query_values opts) with (query_values None); [reflexivity |].
  unfold query_values. now rewrite Hp.
Qed.

Lemma query_without_values_as_without_options_witness :
  PostgresDB.query (Double.db (Double.pool [])) "SELECT 1"
    (Some Double.with_none) []
  = PostgresDB.query (Double.db (Double.pool [])) "SELECT 1" None [].
Proof.
  apply (query_without_values_as_without_options
           (Double.db (Double.pool [])) "SELECT 1" (Some Double.with_none) []).
  reflexivity.
Defined.

(** X5: whatever [query] raises is the not-connected DBConnectionError, the
    DBConnectionError of a failed lease, or the QueryExecutionError of a
    failed statement; the last two carry their cause. *)
Theorem query_raises_only_typed_errors :
  forall db statement opts t e,
    snd (PostgresDB.query db statement opts t) = Throws e ->
    e = DBConnectionError PostgresDB.not_connected None
    \/ (exists c, e = DBConnectionError "Database unavailable" (Some c))
    \/ (exists c, e = QueryExecutionError "An error occurred executing query"
                                          (Some c)).
Proof.
  intros db statement opts t e. rewrite query_eq.
  destruct (PostgresDB.pool db) as [pool|]; cbn.
  - destruct (Pg.connect pool t) as [c|client]; cbn.
    + intros H. inversion H. right. left. now exists c.
    + destruct (Pg.query client _ _ _) as [c|pgResult]; intros H;
        inversion H. right. right. now exists c.
  - intros H. inversion H. now left.
Qed.

Lemma query_raises_only_typed_errors_witness :
  QueryExecutionError "An error occurred executing query"
                      (Some (Failure "syntax error"))
  = DBConnectionError PostgresDB.not_connected None
  \/ (exists c, QueryExecutionError "An error occurred executing query"
                                    (Some (Failure "syntax error"))
                = DBConnectionError "Database unavailable" (Some c))
  \/ (exists c, QueryExecutionError "An error occurred executing query"
                                    (Some (Failure "syntax error"))
                = QueryExecutionError "An error occurred executing query"
                                      (Some c)).
Proof.
  apply (query_raises_only_typed_errors
           (Double.db (Double.pool Double.select_fails)) "SELECT 1" None []).
  reflexivity.
Defined.

(** ** [operation] *)

(** X7: for an operation built by the constructor, [operation] is [query]
    on the operation's statement with the parameters [operation] settles
    on, followed, only when the query returned, by the marshaller step: the
    calls made are those of [query], a failure of [query] is raised as it
    is, and the marshaller sees the DBResult [query] returns. *)
Theorem operation_is_query_then_marshal :
  forall db statement o opts t,
    let op := DBOperation.new statement o in
    PostgresDB.operation db op opts t
    = match PostgresDB.query db statement
              (Some {| Opts.parameters := operation_parameters op opts;
                       Opts.marshaller := undefined |}) t with
      | (t', Returns dbResult) =>
          (t', match marshal (DBOperation.marshaller op) dbResult with
               | inl e => Throws e
               | inr r => Returns r
               end)
      | (t', Throws e) => (t', Throws e)
      end.
Proof.
  intros db statement o opts t op.
  rewrite (operation_eq db op opts t
             (constructed_parameters_array_or_null statement o opts)).
  rewrite query_eq. unfold query_values. cbn [Opts.default Opts.parameters].
  destruct (PostgresDB.pool db) as [pool|]; [| reflexivity].
  destruct (Pg.connect pool t) as [e|client]; [reflexivity |].
  cbn [DBOperation.statement op DBOperation.new].
  destruct (Pg.query client _ _ _); reflexivity.
Qed.

Lemma operation_uses_override_witness :
  fst (PostgresDB.operation (Double.db (Double.pool [])) Double.update_one
         (Some {| Opts.parameters := Val (Arr []);
                  Opts.marshaller := undefined |}) [])
  = [] ++ [Pg.Connect; Pg.Query "UPDATE t SET a = $1" None; Pg.Release].
Proof.
  apply (operation_uses_override
           (Double.db (Double.pool [])) (Double.pool []) (Double.client [])
           Double.update_one [] undefined []);
    reflexivity.
Defined.

Lemma operation_uses_own_parameters_witness :
  fst (PostgresDB.operation (Double.db (Double.pool []))
         {| DBOperation.statement := "UPDATE t SET a = $1";
            DBOperation.parameters := Val (Arr [Num 1]);
            DBOperation.marshaller := null |} None [])
  = [] ++ [Pg.Connect;
           Pg.Query "UPDATE t SET a = $1" (Some (Val (Arr [Num 1])));
           Pg.Release].
Proof.
  apply (operation_uses_own_parameters
           (Double.db (Double.pool [])) (Double.pool []) (Double.client [])
           "UPDATE t SET a = $1" [Num 1] null None []);
    reflexivity.
Defined.

(** X10: whatever [operation] raises is one of the three errors of [query]
    or is what the marshaller step itself raised on a DBResult. *)
Theorem operation_raises_typed_or_marshaller_errors :
  forall db op opts t e,
    snd (PostgresDB.operation db op opts t) = Throws e ->
    e = DBConnectionError PostgresDB.not_connected None
    \/ (exists c, e = DBConnectionError "Database unavailable" (Some c))
    \/ (exists c, e = QueryExecutionError "An error occurred executing query"
                                          (Some c))
    \/ (exists dbResult, marshal (DBOperation.marshaller op) dbResult = inl e).
Proof.
  intros db op opts t e. unfold PostgresDB.operation.
  destruct (PostgresDB.pool db) as [pool|];
    [| intros H; inversion H; now left].
  unfold bind at 1, try_catch at 1, pool_connect.
  destruct (Pg.connect pool t) as [c|client].
  - intros H. inversion H. right. left. now exists c.
  - unfold bind, try_finally, try_catch, client_release, throw, lift, ret.
    destruct (PostgresDB.execute _ _ _ _) as [t' [dbResult|c]]; cbn.
    + destruct (marshal (DBOperation.marshaller op) dbResult) eqn:Hm;
        intros H; inversion H; subst.
      right. right. right. now exists dbResult.
    + intros H. inversion H. right. right. left. now exists c.
Qed.

Lemma operation_raises_typed_or_marshaller_errors_witness :
  Failure "boom" = DBConnectionError PostgresDB.not_connected None
  \/ (exists c, Failure "boom"
                = DBConnectionError "Database unavailable" (Some c))
  \/ (exists c, Failure "boom"
                = QueryExecutionError "An error occurred executing query"
                                      (Some c))
  \/ (exists dbResult,
         marshal (DBOperation.marshaller
                    (Double.select_throwing (Failure "boom"))) dbResult
         = inl (Failure "boom")).
Proof.
  apply (operation_raises_typed_or_marshaller_errors
           (Double.db (Double.pool []))
           (Double.select_throwing (Failure "boom")) None []).
  reflexivity.
Defined.

(** ** [transaction] *)

(** X11: whatever [transaction] raises is the not-connected
    DBConnectionError, the ReferenceError of the lease handler, or a
    QueryExecutionError carrying a cause: that of the transaction or that of
    the rollback.  No error of a statement or of a marshaller comes out
    unwrapped. *)
Theorem transaction_raises_only_these_errors :
  forall db operations t e,
    snd (PostgresDB.transaction db operations t) = Throws e ->
    e = DBConnectionError PostgresDB.not_connected None
    \/ e = ReferenceError "DatabaseConnectionError is not defined"
    \/ (exists c,
           e = QueryExecutionError
                 "An error occurred executing a database transaction" (Some c))
    \/ (exists c,
           e = QueryExecutionError
                 "Error occurred while rolling back DB transaction" (Some c)).
Proof.
  intros db operations t e.
  destruct (PostgresDB.pool db) as [pool|] eqn:Hpool.
  - destruct (Pg.connect pool t) as [c|client] eqn:Hconn.
    + unfold PostgresDB.transaction. rewrite Hpool.
      unfold bind, try_catch, pool_connect, throw. rewrite Hconn. cbn.
      intros H. inversion H. right. now left.
    + rewrite (transaction_leased db pool client operations t Hpool Hconn).
      destruct (PostgresDB.transaction_body _ _ _) as [t' [results|c]]; cbn;
        [discriminate |].
      destruct (Pg.query client t' "ROLLBACK" None) as [r|ok];
        intros H; inversion H.
      * right. right. right. now exists r.
      * right. right. left. now exists c.
  - unfold PostgresDB.transaction. rewrite Hpool. cbn.
    intros H. inversion H. now left.
Qed.

Lemma transaction_raises_only_these_errors_witness :
  QueryExecutionError "An error occurred executing a database transaction"
                      (Some (Failure "boom"))
  = DBConnectionError PostgresDB.not_connected None
  \/ QueryExecutionError "An error occurred executing a database transaction"
                         (Some (Failure "boom"))
     = ReferenceError "DatabaseConnectionError is not defined"
  \/ (exists c,
         QueryExecutionError "An error occurred executing a database transaction"
                             (Some (Failure "boom"))
         = QueryExecutionError
             "An error occurred executing a database transaction" (Some c))
  \/ (exists c,
         QueryExecutionError "An error occurred executing a database transaction"
                             (Some (Failure "boom"))
         = QueryExecutionError
             "Error occurred while rolling back DB transaction" (Some c)).
Proof.
  apply (transaction_raises_only_these_errors
           (Double.db (Double.pool []))
           [Double.entry "SELECT 1" (Double.throwing (Failure "boom"))] []).
  reflexivity.
Defined.

(** X12: a [transaction] that returns has issued, on one lease, BEGIN, the
    statement of every entry once and in input order, and COMMIT as its last
    statement, then released; and it returns as many results as entries. *)
Theorem transaction_returns_only_after_commit :
  forall db operations t t' results,
    PostgresDB.transaction db operations t = (t', Returns results) ->
    t' = issued_before t operations (List.length operations)
           ++ [Pg.Query "COMMIT" None; Pg.Release]
    /\ List.length results = List.length operations.
Proof.
  intros db operations t t' results.
  destruct (PostgresDB.pool db) as [pool|] eqn:Hpool.
  - destruct (Pg.connect pool t) as [c|client] eqn:Hconn.
    + unfold PostgresDB.transaction. rewrite Hpool.
      unfold bind, try_catch, pool_connect, throw. rewrite Hconn. cbn.
      discriminate.
    + rewrite (transaction_leased db pool client operations t Hpool Hconn).
      rewrite transaction_body_eq.
      destruct (Pg.query client (t ++ [Pg.Connect]) "BEGIN" None);
        [discriminate |].
      destruct (PostgresDB.transaction_loop _ _ _ _) as [t1 [rs|e]] eqn:Hloop;
        [| discriminate].
      destruct (Pg.query client t1 "COMMIT" None); [discriminate |].
      intros H. inversion H; subst.
      apply transaction_loop_returns in Hloop.
      destruct Hloop as [-> [pushed [-> Hlen]]].
      split; [| exact Hlen].
      rewrite issued_before_eq, firstn_all. trace_eq.
  - unfold PostgresDB.transaction. rewrite Hpool. cbn. discriminate.
Qed.

Lemma transaction_returns_only_after_commit_witness :
  [Pg.Connect; Pg.Query "BEGIN" None; Pg.Query "INSERT A" None;
   Pg.Query "INSERT B" None; Pg.Query "COMMIT" None; Pg.Release]
  = issued_before [] [Double.plain "INSERT A"; Double.plain "INSERT B"] 2
      ++ [Pg.Query "COMMIT" None; Pg.Release]
  /\ List.length [Raw (PostgresDB.unmarshallPgResult Double.no_rows);
                  Raw (PostgresDB.unmarshallPgResult Double.no_rows)] = 2.
Proof.
  apply (transaction_returns_only_after_commit
           (Double.db (Double.pool []))
           [Double.plain "INSERT A"; Double.plain "INSERT B"] []).
  reflexivity.
Defined.

(** X13: a leased [transaction] that raises has issued BEGIN, then the
    statements of the first n entries in input order for some n, then either
    ROLLBACK, or (all entries done) COMMIT and ROLLBACK; the release comes
    last.  ROLLBACK is always the last statement of a failed transaction. *)
Theorem failed_transaction_ends_with_rollback :
  forall db pool client operations t e,
    PostgresDB.pool db = Some pool ->
    Pg.connect pool t = inr client ->
    snd (PostgresDB.transaction db operations t) = Throws e ->
    (exists n,
        fst (PostgresDB.transaction db operations t)
        = issued_before t operations n
            ++ [Pg.Query "ROLLBACK" None; Pg.Release])
    \/ fst (PostgresDB.transaction db operations t)
       = issued_before t operations (List.length operations)
           ++ [Pg.Query "COMMIT" None; Pg.Query "ROLLBACK" None; Pg.Release].
Proof.
  intros db pool client operations t e Hpool Hconn.
  rewrite (transaction_leased db pool client operations t Hpool Hconn).
  rewrite transaction_body_eq.
  destruct (Pg.query client (t ++ [Pg.Connect]) "BEGIN" None) as [c|b].
  - intros _. left. exists 0. cbn. unfold issued_before. cbn. trace_eq.
  - destruct (transaction_loop_trace client operations []
                ((t ++ [Pg.Connect]) ++ [Pg.Query "BEGIN" None])) as [n Hn].
    destruct (PostgresDB.transaction_loop _ _ _ _) as [t1 [rs|c]] eqn:Hloop.
    + apply transaction_loop_returns in Hloop. destruct Hloop as [-> _].
      destruct (Pg.query client _ "COMMIT" None) as [c|ok]; cbn;
        [| discriminate].
      intros _. right. rewrite issued_before_eq, firstn_all. trace_eq.
    + cbn in Hn. subst t1. intros _. left. exists n. cbn.
      rewrite issued_before_eq. trace_eq.
Qed.

Lemma failed_transaction_ends_with_rollback_witness :
  (exists n,
      fst (PostgresDB.transaction
             (Double.db (Double.pool Double.insert_b_fails))
             [Double.plain "INSERT A"; Double.plain "INSERT B";
              Double.plain "INSERT C"] [])
      = issued_before []
          [Double.plain "INSERT A"; Double.plain "INSERT B";
           Double.plain "INSERT C"] n
          ++ [Pg.Query "ROLLBACK" None; Pg.Release])
  \/ fst (PostgresDB.transaction
            (Double.db (Double.pool Double.insert_b_fails))
            [Double.plain "INSERT A"; Double.plain "INSERT B";
             Double.plain "INSERT C"] [])
     = issued_before []
         [Double.plain "INSERT A"; Double.plain "INSERT B";
          Double.plain "INSERT C"] 3
         ++ [Pg.Query "COMMIT" None; Pg.Query "ROLLBACK" None; Pg.Release].
Proof.
  apply (failed_transaction_ends_with_rollback
           (Double.db (Double.pool Double.insert_b_fails))
           (Double.pool Double.insert_b_fails)
           (Double.client Double.insert_b_fails)
           [Double.plain "INSERT A"; Double.plain "INSERT B";
            Double.plain "INSERT C"] []
           (QueryExecutionError
              "An error occurred executing a database transaction"
              (Some (Failure "duplicate key"))));
    reflexivity.
Defined.

(** X14: when BEGIN is rejected with [e], no entry's statement is issued,
    whatever the list; ROLLBACK is still attempted, the lease released, and
    the QueryExecutionError raised wraps [e] (or the rollback's cause when
    the ROLLBACK is rejected too). *)
Theorem transaction_begin_failure :
  forall db pool client operations t e,
    PostgresDB.pool db = Some pool ->
    Pg.connect pool t = inr client ->
    Pg.query client (t ++ [Pg.Connect]) "BEGIN" None = inl e ->
    PostgresDB.transaction db operations t
    = (t ++ [Pg.Connect; Pg.Query "BEGIN" None;
             Pg.Query "ROLLBACK" None; Pg.Release],
       Throws
         match Pg.query client (t ++ [Pg.Connect; Pg.Query "BEGIN" None])
                 "ROLLBACK" None with
         | inl r =>
             QueryExecutionError
               "Error occurred while rolling back DB transaction" (Some r)
         | inr _ =>
             QueryExecutionError
               "An error occurred executing a database transaction" (Some e)
         end).
Proof.
  intros db pool client operations t e Hpool Hconn Hbegin.
  rewrite (transaction_leased db pool client operations t Hpool Hconn).
  rewrite transaction_body_eq, Hbegin.
  replace ((t ++ [Pg.Connect]) ++ [Pg.Query "BEGIN" None])
    with (t ++ [Pg.Connect; Pg.Query "BEGIN" None]) by trace_eq.
  f_equal. trace_eq.
Qed.

Lemma transaction_begin_failure_witness :
  PostgresDB.transaction (Double.db (Double.pool Double.begin_fails))
    [Double.plain "INSERT A"] []
  = ([] ++ [Pg.Connect; Pg.Query "BEGIN" None;
            Pg.Query "ROLLBACK" None; Pg.Release],
     Throws (QueryExecutionError
               "An error occurred executing a database transaction"
               (Some (Failure "read-only")))).
Proof.
  apply (transaction_begin_failure
           (Double.db (Double.pool Double.begin_fails))
           (Double.pool Double.begin_fails)
           (Double.client Double.begin_fails)
           [Double.plain "INSERT A"] [] (Failure "read-only"));
    reflexivity.
Defined.

(** X15: when BEGIN and every entry succeed but COMMIT is rejected with
    [e], ROLLBACK is issued after the COMMIT, the lease is released, and a
    QueryExecutionError is raised (around [e], or around the rollback's
    cause when the ROLLBACK is rejected too); the results gathered are not
    returned. *)
Theorem transaction_commit_failure :
  forall db pool client operations t b e,
    PostgresDB.pool db = Some pool ->
    Pg.connect pool t = inr client ->
    Pg.query client (t ++ [Pg.Connect]) "BEGIN" None = inr b ->
    (forall i op,
        nth_error operations i = Some op ->
        exists pgResult r,
          Pg.query client (issued_before t operations i)
            (DBOperation.statement (Invocation.operation op))
            (PostgresDB.transaction_values op)
          = inr pgResult
          /\ marshal (DBOperation.marshaller (Invocation.operation op))
                     (PostgresDB.unmarshallPgResult pgResult)
             = inr r) ->
    Pg.query client (issued_before t operations (List.length operations))
      "COMMIT" None = inl e ->
    PostgresDB.transaction db operations t
    = (issued_before t operations (List.length operations)
         ++ [Pg.Query "COMMIT" None; Pg.Query "ROLLBACK" None; Pg.Release],
       Throws
         match Pg.query client
                 (issued_before t operations (List.length operations)
                    ++ [Pg.Query "COMMIT" None])
                 "ROLLBACK" None with
         | inl r =>
             QueryExecutionError
               "Error occurred while rolling back DB transaction" (Some r)
         | inr _ =>
             QueryExecutionError
               "An error occurred executing a database transaction" (Some e)
         end).
Proof.
  intros db pool client operations t b e Hpool Hconn Hbegin Hall Hcommit.
  destruct (transaction_loop_all_succeed client operations []
              (t ++ [Pg.Connect; Pg.Query "BEGIN" None]))
    as [results [Hloop _]].
  { intros i op Hnth. rewrite <- issued_before_eq. exact (Hall i op Hnth). }
  rewrite issued_before_eq, firstn_all in Hcommit |- *.
  rewrite (transaction_leased db pool client _ t Hpool Hconn).
  rewrite transaction_body_eq, Hbegin.
  replace ((t ++ [Pg.Connect]) ++ [Pg.Query "BEGIN" None])
    with (t ++ [Pg.Connect; Pg.Query "BEGIN" None]) by trace_eq.
  rewrite Hloop, Hcommit. f_equal. trace_eq.
Qed.

Lemma transaction_commit_failure_witness :
  PostgresDB.transaction (Double.db (Double.pool Double.commit_fails))
    [Double.plain "INSERT A"] []
  = (issued_before [] [Double.plain "INSERT A"] 1
       ++ [Pg.Query "COMMIT" None; Pg.Query "ROLLBACK" None; Pg.Release],
     Throws (QueryExecutionError
               "An error occurred executing a database transaction"
               (Some (Failure "serialization failure")))).
Proof.
  apply (transaction_commit_failure
           (Double.db (Double.pool Double.commit_fails))
           (Double.pool Double.commit_fails)
           (Double.client Double.commit_fails)
           [Double.plain "INSERT A"] [] Double.no_rows
           (Failure "serialization failure")).
  - reflexivity.
  - reflexivity.
  - reflexivity.
  - intros [|i] op Hnth; cbn in Hnth.
    + inversion Hnth; subst op. eexists. eexists. split; reflexivity.
    + destruct i; discriminate.
  - reflexivity.
Defined.

(** X16: when BEGIN and the entries before entry k succeed, the statement
    of entry k is answered, and the marshaller step of entry k raises [e],
    the transaction is rolled back like one whose statement failed: nothing
    after entry k's statement is issued but ROLLBACK, the lease is released,
    and the QueryExecutionError raised wraps [e] (or the rollback's cause
    when the ROLLBACK is rejected). *)
Theorem transaction_marshaller_failure :
  forall db pool client before op after t b t1 results pgResult e,
    PostgresDB.pool db = Some pool ->
    Pg.connect pool t = inr client ->
    Pg.query client (t ++ [Pg.Connect]) "BEGIN" None = inr b ->
    PostgresDB.transaction_loop client before []
      (t ++ [Pg.Connect; Pg.Query "BEGIN" None])
    = (t1, Returns results) ->
    Pg.query client t1
      (DBOperation.statement (Invocation.operation op))
      (PostgresDB.transaction_values op)
    = inr pgResult ->
    marshal (DBOperation.marshaller (Invocation.operation op))
            (PostgresDB.unmarshallPgResult pgResult)
    = inl e ->
    PostgresDB.transaction db (before ++ op :: after) t
    = (issued_before t (before ++ op :: after) (S (List.length before))
         ++ [Pg.Query "ROLLBACK" None; Pg.Release],
       Throws
         match Pg.query client
                 (issued_before t (before ++ op :: after)
                    (S (List.length before)))
                 "ROLLBACK" None with
         | inl r =>
             QueryExecutionError
               "Error occurred while rolling back DB transaction" (Some r)
         | inr _ =>
             QueryExecutionError
               "An error occurred executing a database transaction" (Some e)
         end).
Proof.
  intros db pool client before op after t b t1 results pgResult e
         Hpool Hconn Hbegin Hbefore Hq Hm.
  assert (Hissued :
            issued_before t (before ++ op :: after) (S (List.length before))
            = (t ++ [Pg.Connect; Pg.Query "BEGIN" None]
                 ++ map statement_event before) ++ [statement_event op]).
  { unfold issued_before.
    replace (S (List.length before)) with (List.length (before ++ [op]))
      by (rewrite length_app; cbn; lia).
    replace (before ++ op :: after) with ((before ++ [op]) ++ after)
      by (rewrite <- app_assoc; reflexivity).
    rewrite firstn_app, firstn_all, Nat.sub_diag, firstn_O, app_nil_r.
    rewrite map_app. cbn. trace_eq. }
  rewrite Hissued.
  rewrite (transaction_leased db pool client _ t Hpool Hconn).
  rewrite transaction_body_eq, Hbegin, transaction_loop_app.
  replace ((t ++ [Pg.Connect]) ++ [Pg.Query "BEGIN" None])
    with (t ++ [Pg.Connect; Pg.Query "BEGIN" None]) by trace_eq.
  rewrite Hbefore, transaction_loop_cons, transaction_step_eq, Hq, Hm.
  apply transaction_loop_returns in Hbefore. destruct Hbefore as [-> _].
  f_equal; trace_eq.
Qed.

Lemma transaction_marshaller_failure_witness :
  PostgresDB.transaction (Double.db (Double.pool []))
    ([Double.plain "INSERT A"]
       ++ Double.entry "SELECT 1" (Double.throwing (Failure "boom"))
       :: [Double.plain "INSERT C"]) []
  = (issued_before []
       ([Double.plain "INSERT A"]
          ++ Double.entry "SELECT 1" (Double.throwing (Failure "boom"))
          :: [Double.plain "INSERT C"]) 2
       ++ [Pg.Query "ROLLBACK" None; Pg.Release],
     Throws (QueryExecutionError
               "An error occurred executing a database transaction"
               (Some (Failure "boom")))).
Proof.
  apply (transaction_marshaller_failure
           (Double.db (Double.pool [])) (Double.pool []) (Double.client [])
           [Double.plain "INSERT A"]
           (Double.entry "SELECT 1" (Double.throwing (Failure "boom")))
           [Double.plain "INSERT C"] [] Double.no_rows
           [Pg.Connect; Pg.Query "BEGIN" None; Pg.Query "INSERT A" None]
           [Raw (PostgresDB.unmarshallPgResult Double.no_rows)]
           Double.no_rows (Failure "boom"));
    reflexivity.
Defined.

(** X17: a transaction of no entries still leases a connection and frames
    nothing with BEGIN and COMMIT; when both succeed it returns the empty
    list. *)
Theorem transaction_of_no_entries :
  forall db pool client t b c,
    PostgresDB.pool db = Some pool ->
    Pg.connect pool t = inr client ->
    Pg.query client (t ++ [Pg.Connect]) "BEGIN" None = inr b ->
    Pg.query client (t ++ [Pg.Connect; Pg.Query "BEGIN" None]) "COMMIT" None
    = inr c ->
    PostgresDB.transaction db [] t
    = (t ++ [Pg.Connect; Pg.Query "BEGIN" None; Pg.Query "COMMIT" None;
             Pg.Release],
       Returns []).
Proof.
  intros db pool client t b c Hpool Hconn Hbegin Hcommit.
  rewrite (transaction_leased db pool client _ t Hpool Hconn).
  rewrite transaction_body_eq, Hbegin. cbn.
  replace ((t ++ [Pg.Connect]) ++ [Pg.Query "BEGIN" None])
    with (t ++ [Pg.Connect; Pg.Query "BEGIN" None]) by trace_eq.
  rewrite Hcommit. f_equal. trace_eq.
Qed.

Lemma transaction_of_no_entries_witness :
  PostgresDB.transaction (Double.db (Double.pool [])) [] []
  = ([] ++ [Pg.Connect; Pg.Query "BEGIN" None; Pg.Query "COMMIT" None;
            Pg.Release],
     Returns []).
Proof.
  apply (transaction_of_no_entries
           (Double.db (Double.pool [])) (Double.pool []) (Double.client [])
           [] Double.no_rows Double.no_rows);
    reflexivity.
Defined.

(** X18: the values a transaction entry runs with, for an operation built
    by the constructor with [opts.parameters = p]: a non-empty array [p]
    itself; nothing when [p] is the empty array, whatever the entry's own
    [parameters]; and when [p] is not an array, the entry's [parameters] if
    they are a non-empty array, nothing otherwise. *)
Theorem transaction_values_of_constructed_operation :
  forall statement p m override,
    PostgresDB.transaction_values
      {| Invocation.operation :=
           DBOperation.new statement
             (Some {| Opts.parameters := p; Opts.marshaller := m |});
         Invocation.parameters := override |}
    = match p with
      | Val (Arr (_ :: _)) => Some p
      | Val (Arr []) => None
      | _ => if array_nonempty override then Some override else None
      end.
Proof.
  intros statement p m override.
  unfold PostgresDB.transaction_values, PostgresDB.transaction_parameters.
  cbn.
  destruct p as [[| | | | |[|v items]|]|]; cbn; try reflexivity;
    destruct override as [[| | | | |[|w ws]|]|]; reflexivity.
Qed.

(** ** Constructors *)

(** X19: building a DBOperation again from the fields of one the
    constructor built gives the same operation: the constructor's
    normalisation changes nothing the second time. *)
Theorem DBOperation_new_idempotent :
  forall statement o,
    let op := DBOperation.new statement o in
    DBOperation.new (DBOperation.statement op)
      (Some {| Opts.parameters := DBOperation.parameters op;
               Opts.marshaller := DBOperation.marshaller op |})
    = op.
Proof.
  intros statement o op. subst op. unfold DBOperation.new. cbn.
  destruct (Array_isArray (Opts.parameters (Opts.default o))) eqn:Hp;
    destruct (typeof_function (Opts.marshaller (Opts.default o))) eqn:Hm;
    cbn; rewrite ?Hp, ?Hm; reflexivity.
Qed.

(** X20: a DBResult made by the constructor has an array or null as rows,
    a number or null as rowCount, an array or null as fields, and building
    it again from its own fields gives it back. *)
Theorem DBResult_new_normalized :
  forall rows rowCount fields,
    let r := DBResult.new rows rowCount fields in
    (isArray (DBResult.rows r) = true \/ DBResult.rows r = Null)
    /\ (isNumber (DBResult.rowCount r) = true \/ DBResult.rowCount r = Null)
    /\ (isArray (DBResult.fields r) = true \/ DBResult.fields r = Null)
    /\ DBResult.new (DBResult.rows r) (DBResult.rowCount r) (DBResult.fields r)
       = r.
Proof.
  intros rows rowCount fields r. subst r. unfold DBResult.new. cbn.
  destruct (isArray rows) eqn:Hr; destruct (isNumber rowCount) eqn:Hc;
    destruct (isArray fields) eqn:Hf; cbn; rewrite ?Hr, ?Hc, ?Hf;
    repeat split; auto.
Qed.

(** X21: for a driver result whose rows and fields are arrays and whose
    rowCount is a number, [unmarshallPgResult] gives the DBResult the
    constructor would build from them. *)
Theorem unmarshallPgResult_as_constructor :
  forall pgResult,
    isArray (Pg.rows pgResult) = true ->
    isNumber (Pg.rowCount pgResult) = true ->
    isArray (Pg.fields pgResult) = true ->
    PostgresDB.unmarshallPgResult pgResult
    = DBResult.new (Pg.rows pgResult) (Pg.rowCount pgResult)
                   (Pg.fields pgResult).
Proof.
  intros pgResult Hr Hc Hf.
  unfold PostgresDB.unmarshallPgResult, DBResult.new. cbn.
  now rewrite Hr, Hc, Hf.
Qed.

Lemma unmarshallPgResult_as_constructor_witness :
  PostgresDB.unmarshallPgResult Double.no_rows
  = DBResult.new (Pg.rows Double.no_rows) (Pg.rowCount Double.no_rows)
                 (Pg.fields Double.no_rows).
Proof.
  apply (unmarshallPgResult_as_constructor Double.no_rows); reflexivity.
Defined.


(** ** [connect] *)

(** X23: [connect] stores the pool it creates, whether or not the first
    lease succeeds.  When the lease is granted it is released at once and
    [connect] returns; when it is rejected with [e], [connect] raises a
    DBConnectionError whose cause is [e] and releases nothing. *)
Theorem connect_outcome :
  forall db created t,
    PostgresDB.pool (fst (PostgresDB.connect db created)) = Some created
    /\ snd (PostgresDB.connect db created) t
       = match Pg.connect created t with
         | inr _ => (t ++ [Pg.Connect; Pg.Release], Returns tt)
         | inl e =>
             (t ++ [Pg.Connect],
              Throws (DBConnectionError "Database unavailable" (Some e)))
         end.
Proof.
  intros db created t. split; [reflexivity |].
  unfold PostgresDB.connect. cbn. run.
  destruct (Pg.connect created t); [reflexivity |]. f_equal. trace_eq.
Qed.

(** X24: after [connect], also after one that failed, [query] is not
    refused as not connected: it goes to the pool for a lease. *)
Theorem query_after_connect_takes_a_lease :
  forall db created statement opts t,
    let connected := fst (PostgresDB.connect db created) in
    (exists rest,
        fst (PostgresDB.query connected statement opts t)
        = t ++ Pg.Connect :: rest)
    /\ snd (PostgresDB.query connected statement opts t)
       <> Throws (DBConnectionError PostgresDB.not_connected None).
Proof.
  intros db created statement opts t connected. subst connected.
  rewrite query_eq. cbn [PostgresDB.connect fst PostgresDB.pool PostgresDB.set_pool].
  destruct (Pg.connect created t) as [e|client]; cbn [fst snd].
  - split; [now exists [] | discriminate].
  - split; [eexists; reflexivity |].
    destruct (Pg.query client _ _ _); discriminate.
Qed.

(** ** [createDB] *)

(** X25: [createDB] accepts a configuration whose [vendor] is a string
    that reads postgres once lowercased, and then returns an instance that
    is not connected and carries the configuration's hostname, port,
    database, username and password. *)
Theorem createDB_accepts_postgres :
  forall config vendor,
    lookup "vendor" config = Str vendor ->
    toLowerCase vendor = "postgres" ->
    exists db,
      DBFactory.createDB config = inr db
      /\ PostgresDB.pool db = None
      /\ PostgresDB.hostname db = lookup "hostname" config
      /\ PostgresDB.port db = lookup "port" config
      /\ PostgresDB.database db = lookup "database" config
      /\ PostgresDB.username db = lookup "username" config
      /\ PostgresDB.password db = lookup "password" config.
Proof.
  intros config vendor Hv Hlow. unfold DBFactory.createDB.
  rewrite Hv, Hlow. cbn. eexists. repeat split.
Qed.

Lemma createDB_accepts_postgres_witness :
  exists db,
    DBFactory.createDB (Double.factory_config (Str "PostGres")) = inr db
    /\ PostgresDB.pool db = None
    /\ PostgresDB.hostname db
       = lookup "hostname" (Double.factory_config (Str "PostGres"))
    /\ PostgresDB.port db
       = lookup "port" (Double.factory_config (Str "PostGres"))
    /\ PostgresDB.database db
       = lookup "database" (Double.factory_config (Str "PostGres"))
    /\ PostgresDB.username db
       = lookup "username" (Double.factory_config (Str "PostGres"))
    /\ PostgresDB.password db
       = lookup "password" (Double.factory_config (Str "PostGres")).
Proof.
  apply (createDB_accepts_postgres
           (Double.factory_config (Str "PostGres")) "PostGres");
    reflexivity.
Defined.

(** X26: [createDB] fails with a DBFactoryError in exactly two ways: the
    vendor-missing message when [config.vendor] is not a string, and the
    unsupported-vendor message when it is a string that does not read
    postgres once lowercased. *)
Theorem createDB_failures :
  forall config e,
    DBFactory.createDB config = inl e ->
    (e = DBFactoryError DBFactory.vendor_missing None
     /\ forall s, lookup "vendor" config <> Str s)
    \/ (e = DBFactoryError DBFactory.vendor_unsupported None
        /\ exists s, lookup "vendor" config = Str s
                     /\ toLowerCase s <> "postgres").
Proof.
  intros config e. unfold DBFactory.createDB.
  destruct (lookup "vendor" config) as [| | | |s| |] eqn:Hv;
    try (intros H; inversion H; left; split; [reflexivity | discriminate]).
  destruct (String.eqb (toLowerCase s) "postgres") eqn:Heq; [discriminate |].
  intros H. inversion H. right. split; [reflexivity |].
  exists s. split; [reflexivity |]. now apply String.eqb_neq.
Qed.

Lemma createDB_failures_witness :
  (DBFactoryError DBFactory.vendor_unsupported None
   = DBFactoryError DBFactory.vendor_missing None
   /\ forall s, lookup "vendor" (Double.factory_config (Str "mysql")) <> Str s)
  \/ (DBFactoryError DBFactory.vendor_unsupported None
      = DBFactoryError DBFactory.vendor_unsupported None
      /\ exists s, lookup "vendor" (Double.factory_config (Str "mysql")) = Str s
                   /\ toLowerCase s <> "postgres").
Proof.
  apply (createDB_failures (Double.factory_config (Str "mysql"))).
  reflexivity.
Defined.

(** X27: the instance [createDB] returns is not initialized: until
    [connect] is called, [query] and [transaction] on it raise the
    not-connected DBConnectionError and never touch the driver. *)
Theorem created_DB_is_not_connected :
  forall config db t,
    DBFactory.createDB config = inr db ->
    (forall statement opts,
        PostgresDB.query db statement opts t
        = (t, Throws (DBConnectionError PostgresDB.not_connected None)))
    /\ (forall operations,
           PostgresDB.transaction db operations t
           = (t, Throws (DBConnectionError PostgresDB.not_connected None))).
Proof.
  intros config db t. unfold DBFactory.createDB.
  destruct (lookup "vendor" config); try discriminate.
  destruct (String.eqb _ _); [| discriminate].
  intros H. inversion H; subst db. split; reflexivity.
Qed.

Lemma created_DB_is_not_connected_witness :
  PostgresDB.transaction
    (DBFactory.createPostgresDB (Double.factory_config (Str "postgres"))) [] []
  = ([], Throws (DBConnectionError PostgresDB.not_connected None)).
Proof.
  apply (created_DB_is_not_connected
           (Double.factory_config (Str "postgres"))
           (DBFactory.createPostgresDB (Double.factory_config (Str "postgres")))
           [] eq_refl).
Defined.
